(** * Auto-context loader ([scripts/autocontext.py]): model and properties

    A shallow embedding of the context-cache module of mcp-global-rules.
    Python code is read as state passing over a small world (the files the
    module can observe, plus a journal of cache and index accesses) with
    exceptions as an explicit outcome.

    Conventions.
    - A Python [str] is a [string]; each character stands for one code point
      in the range 0..255.  A Python [int] is a [Z].
    - A value produced by [json.load] is a [pyval]; JSON numbers with a
      fraction or an exponent are outside the model.
    - A Python [dict] is an association list in insertion order.
    - The standard library ([json], [pathlib], [open]) and the modules of the
      repository that the module imports are the environment of the code. *)

From Stdlib Require Import ZArith String Ascii List QArith Lia Lqa Sorted.
From stdpp Require Import base tactics option list gmap strings pretty.

Local Open Scope string_scope.
Local Open Scope list_scope.
Local Open Scope Z_scope.

Set Warnings "-register-all".

(** ** Outcomes of running Python code *)

(** The exception classes the model distinguishes; all derive from
    [Exception], so a blanket [except Exception] catches each of them. *)
Inductive exn :=
| TypeError | AttributeError | IndexError | KeyError | ValueError
| OSError | ImportError | RuntimeError.

Inductive outcome (A : Type) :=
| Return (a : A)
| Raise (e : exn).
Arguments Return {A} a.
Arguments Raise {A} e.

Definition returns {A} (o : outcome A) : Prop := ∃ a, o = Return a.

(** ** Python strings *)
Module PyStr.

(** [str.isspace] on the code points below 256. *)
Definition isspace (a : ascii) : bool :=
  let n := N_of_ascii a in
  ((9 <=? n) && (n <=? 13) || (28 <=? n) && (n <=? 32)
   || (n =? 133) || (n =? 160))%N.

Definition cons_word (w : string) (ws : list string) : list string :=
  match w with
  | EmptyString => ws
  | _ => w :: ws
  end.

(** One right-to-left pass: the word being built, and the words after it. *)
Fixpoint split_go (s : string) : string * list string :=
  match s with
  | EmptyString => (EmptyString, [])
  | String a s' =>
      let '(w, ws) := split_go s' in
      if isspace a then (EmptyString, cons_word w ws) else (String a w, ws)
  end.

(** [s.split()]: the maximal runs of non-whitespace characters. *)
Definition split (s : string) : list string :=
  let '(w, ws) := split_go s in cons_word w ws.

(** [s.split(sep)] for a one-character separator; never empty. *)
Fixpoint split_on (sep : ascii) (s : string) : list string :=
  match s with
  | EmptyString => [EmptyString]
  | String a s' =>
      let r := split_on sep s' in
      if Ascii.eqb a sep then EmptyString :: r
      else match r with
           | w :: ws => String a w :: ws
           | [] => [String a EmptyString]
           end
  end.

(** [s.replace(old, new)] for a non-empty [old]: leftmost occurrences,
    not overlapping.  [skip] counts the characters of an occurrence that
    are still to be dropped. *)
Fixpoint replace_go (old new : string) (skip : nat) (s : string) : string :=
  match s with
  | EmptyString => EmptyString
  | String a s' =>
      match skip with
      | S k => replace_go old new k s'
      | O =>
          if String.prefix old s
          then new +:+ replace_go old new (Nat.pred (String.length old)) s'
          else String a (replace_go old new O s')
      end
  end.

Definition replace (old new s : string) : string := replace_go old new O s.

(** [sep.join(parts)] *)
Definition join (sep : string) (parts : list string) : string :=
  String.concat sep parts.

Definition LF : ascii := Ascii.ascii_of_nat 10.

(** [f.readlines()] on a text-mode file: the text cut after every line
    feed, the line feeds kept. *)
Fixpoint readlines (s : string) : list string :=
  match s with
  | EmptyString => []
  | String a s' =>
      if Ascii.eqb a LF then String a EmptyString :: readlines s'
      else match readlines s' with
           | l :: ls => String a l :: ls
           | [] => [String a EmptyString]
           end
  end.

(** [s[:n]] *)
Definition slice_to (n : Z) (s : string) : string :=
  if 0 <=? n then String.substring 0 (Z.to_nat n) s
  else String.substring 0 (String.length s - Z.to_nat (- n))%nat s.

(** [len(s.split())], the whitespace-token count of the module. *)
Definition tokens (s : string) : Z := Z.of_nat (length (split s)).

End PyStr.

(** ** Python lists and dicts *)
Module PyList.

(** [l[:n]] with Python's reading of a negative bound. *)
Definition slice_to {A} (n : Z) (l : list A) : list A :=
  if 0 <=? n then take (Z.to_nat n) l
  else take (length l - Z.to_nat (- n))%nat l.

(** [l.remove(x)] once [x in l] is known: drops the first match. *)
Fixpoint remove_first {A} (eqb : A → bool) (l : list A) : list A :=
  match l with
  | [] => []
  | y :: l' => if eqb y then l' else y :: remove_first eqb l'
  end.

(** Stable insertion sort: [x] goes after the elements that must come
    before it and in front of the ones it ties with, so that elements
    that tie keep their order, as [sorted] guarantees. *)
Fixpoint insert_by {A} (before : A → A → bool) (x : A) (l : list A) : list A :=
  match l with
  | [] => [x]
  | y :: l' => if before y x then y :: insert_by before x l' else x :: y :: l'
  end.

Fixpoint sort_by {A} (before : A → A → bool) (l : list A) : list A :=
  match l with
  | [] => []
  | x :: l' => insert_by before x (sort_by before l')
  end.

End PyList.

Module PyDict.

Fixpoint get {V} (k : string) (d : list (string * V)) : option V :=
  match d with
  | [] => None
  | (k', v) :: d' => if String.eqb k' k then Some v else get k d'
  end.

Definition mem {V} (k : string) (d : list (string * V)) : bool :=
  match get k d with Some _ => true | None => false end.

(** [d[k] = v]: an existing key keeps its position. *)
Fixpoint set {V} (k : string) (v : V) (d : list (string * V)) : list (string * V) :=
  match d with
  | [] => [(k, v)]
  | (k', v') :: d' =>
      if String.eqb k' k then (k, v) :: d' else (k', v') :: set k v d'
  end.

Definition keys {V} (d : list (string * V)) : list string := map fst d.

End PyDict.

(** ** Values read from JSON *)

(** What [json.load] can return: [None], [bool], [int], [str], [list],
    [dict] (keys are always strings). *)
Inductive pyval :=
| PNone
| PBool (b : bool)
| PInt (n : Z)
| PStr (s : string)
| PList (l : list pyval)
| PDict (d : list (string * pyval)).

(** [v == s] for a string [s]: only an equal string is equal to it. *)
Definition eq_str (s : string) (v : pyval) : bool :=
  match v with
  | PStr s' => String.eqb s' s
  | _ => false
  end.

(** ** The [json] printer *)
Module Json.

Definition dq : string := String (Ascii.ascii_of_nat 34) EmptyString.
Definition backslash : string := String (Ascii.ascii_of_nat 92) EmptyString.

Definition hex_digit (n : N) : string :=
  String.substring (N.to_nat n) 1 "0123456789abcdef".

(** One character of a string literal with [ensure_ascii]: the quote and
    the backslash are escaped, and so is every character outside the
    printable ASCII range, with a short escape where JSON has one. *)
Definition escape (a : ascii) : string :=
  let n := N_of_ascii a in
  if (n =? 34)%N then backslash +:+ dq
  else if (n =? 92)%N then backslash +:+ backslash
  else if (n =? 10)%N then backslash +:+ "n"
  else if (n =? 13)%N then backslash +:+ "r"
  else if (n =? 9)%N then backslash +:+ "t"
  else if (n =? 8)%N then backslash +:+ "b"
  else if (n =? 12)%N then backslash +:+ "f"
  else if ((n <? 32) || (126 <? n))%N
       then backslash +:+ "u00" +:+ hex_digit (n / 16) +:+ hex_digit (n mod 16)
  else String a EmptyString.

Fixpoint escape_all (s : string) : string :=
  match s with
  | EmptyString => EmptyString
  | String a s' => escape a +:+ escape_all s'
  end.

Definition quoted (s : string) : string := dq +:+ escape_all s +:+ dq.

Fixpoint spaces (n : nat) : string :=
  match n with
  | O => EmptyString
  | S n' => String " " (spaces n')
  end.

(** A line break followed by the indentation of a nesting level. *)
Definition break (level : nat) : string :=
  String (Ascii.ascii_of_nat 10) (spaces (2 * level)).

(** [json.dumps(v, indent=2)] at a nesting level. *)
Fixpoint dumps_at (level : nat) (v : pyval) : string :=
  match v with
  | PNone => "null"
  | PBool true => "true"
  | PBool false => "false"
  | PInt n => pretty n
  | PStr s => quoted s
  | PList [] => "[]"
  | PList l =>
      "[" +:+ break (S level)
      +:+ String.concat ("," +:+ break (S level))
            (map (λ x, dumps_at (S level) x) l)
      +:+ break level +:+ "]"
  | PDict [] => "{}"
  | PDict d =>
      "{" +:+ break (S level)
      +:+ String.concat ("," +:+ break (S level))
            (map (λ kx : string * pyval,
                    quoted kx.1 +:+ ": " +:+ dumps_at (S level) kx.2) d)
      +:+ break level +:+ "}"
  end.

Definition dumps (v : pyval) : string := dumps_at 0 v.

End Json.

(** ** [pathlib] on POSIX *)
Module PathLib.

(** A pure path: its anchor (empty, one slash, or exactly two slashes)
    and its components. *)
Record Path := mkPath { anchor : string; parts : list string }.

Definition anchor_of (s : string) : string :=
  match s with
  | String "/" (String "/" (String "/" _)) => "/"
  | String "/" (String "/" _) => "//"
  | String "/" _ => "/"
  | _ => EmptyString
  end.

(** Empty components and [.] are dropped when a path is parsed. *)
Definition keep_part (c : string) : bool :=
  negb (String.eqb c EmptyString) && negb (String.eqb c ".").

(** [Path(s)] *)
Definition of_str (s : string) : Path :=
  {| anchor := anchor_of s;
     parts := List.filter keep_part (PyStr.split_on "/" s) |}.

(** [str(p)] *)
Definition str (p : Path) : string :=
  match anchor p, parts p with
  | EmptyString, [] => "."
  | a, ps => a +:+ PyStr.join "/" ps
  end.

Definition is_absolute (p : Path) : bool := negb (String.eqb (anchor p) EmptyString).

(** [a / b] *)
Definition joinpath (a b : Path) : Path :=
  if is_absolute b then b
  else {| anchor := anchor a; parts := parts a ++ parts b |}.

(** [p.name] *)
Definition name (p : Path) : string := List.last (parts p) EmptyString.

(** [p + s]: paths define no addition (and [str] no reflected one), so
    the expression raises [TypeError] whatever its operands. *)
Definition add_str (p : Path) (s : string) : outcome Path := Raise TypeError.

End PathLib.
Export PathLib.

Notation "a // b" := (joinpath a (of_str b)) (at level 40, left associativity).

(** ** The cache record *)

(** [ContextCache].  A dataclass does not check its annotations, so each
    field holds whatever value it was given. *)
Record ContextCache := mkCache {
  recent_files : pyval;   (* List[str] *)
  hot_files : pyval;      (* Dict[str, int], path -> access count *)
  last_query : pyval;     (* str *)
  last_task : pyval;      (* str *)
  timestamp : pyval       (* str *)
}.

(** [ContextCache()]: the field defaults. *)
Definition ContextCache_new : ContextCache :=
  {| recent_files := PList []; hot_files := PDict [];
     last_query := PStr EmptyString; last_task := PStr EmptyString;
     timestamp := PStr EmptyString |}.

Definition field_names : list string :=
  ["recent_files"; "hot_files"; "last_query"; "last_task"; "timestamp"].

(** [cache.to_dict()], that is [asdict(cache)]: the fields in declaration
    order. *)
Definition to_dict (c : ContextCache) : pyval :=
  PDict [("recent_files", recent_files c); ("hot_files", hot_files c);
         ("last_query", last_query c); ("last_task", last_task c);
         ("timestamp", timestamp c)].

Definition is_field (k : string) : bool := existsb (String.eqb k) field_names.

(** [ContextCache.from_dict(data)]: the constructor is called with the
    items of [data] as keyword arguments, so [data] must be a mapping and
    each of its keys a field name; a field that is not given takes its
    default.  Values are stored as they come. *)
Definition from_dict (data : pyval) : outcome ContextCache :=
  match data with
  | PDict kv =>
      if forallb is_field (PyDict.keys kv) then
        let field k d := default d (PyDict.get k kv) in
        Return {| recent_files := field "recent_files" (PList []);
                  hot_files := field "hot_files" (PDict []);
                  last_query := field "last_query" (PStr EmptyString);
                  last_task := field "last_task" (PStr EmptyString);
                  timestamp := field "timestamp" (PStr EmptyString) |}
      else Raise TypeError
  | _ => Raise TypeError
  end.

Definition set_recent_files (v : pyval) (c : ContextCache) : ContextCache :=
  {| recent_files := v; hot_files := hot_files c; last_query := last_query c;
     last_task := last_task c; timestamp := timestamp c |}.
Definition set_hot_files (v : pyval) (c : ContextCache) : ContextCache :=
  {| recent_files := recent_files c; hot_files := v; last_query := last_query c;
     last_task := last_task c; timestamp := timestamp c |}.
Definition set_last_query (v : pyval) (c : ContextCache) : ContextCache :=
  {| recent_files := recent_files c; hot_files := hot_files c; last_query := v;
     last_task := last_task c; timestamp := timestamp c |}.
Definition set_timestamp (v : pyval) (c : ContextCache) : ContextCache :=
  {| recent_files := recent_files c; hot_files := hot_files c;
     last_query := last_query c; last_task := last_task c; timestamp := v |}.

(** [ContextResult] *)
Record ContextResult := mkResult {
  files : list (string * string);   (* (path, content summary) *)
  token_count : Z;
  source : string
}.

(** ** The world the module runs in *)

(** What the module can observe of a path that exists: [open] or decoding
    fails (a directory, no permission, bytes that are not UTF-8), or the
    file has a text, and [json.load] makes [doc] of it ([None] when it
    raises).  A path that is not in the map does not exist: [exists] is
    taken to answer for every path, a path whose status cannot be read
    counting as absent.  Directories that [mkdir] creates on the way to
    the cache file are not recorded, since the module cannot tell a
    directory from an absent path (neither can be opened). *)
Inductive fnode :=
| Unreadable
| Readable (text : string) (doc : option pyval).

(** Accesses to the persisted state, in program order. *)
Inductive event :=
| CacheLoad (p : string)
| CacheSave (p : string)
| IndexLoad (p : string)
| IndexSearch (p : string).

Record World := mkWorld {
  nodes : gmap string fnode;
  readonly : gset string;     (* paths at which creating or writing a file fails *)
  journal : list event
}.

(** Data model of the search index, as far as this module reads it. *)
Record Chunk := mkChunk {
  path : string;
  start_line : Z;
  end_line : Z;
  content : string;
  content_hash : string
}.

Record SearchResult := mkSearchResult { chunk : Chunk; score : Q }.

(** The collaborators of the module: [utils.find_project_root], the
    process ([Path.cwd], the clock), and the modules
    [vector_store] and [treesitter_utils], which the functions import when
    they are called.  A store is named by its index directory. *)
Record Env := mkEnv {
  find_project_root : option Path;
  cwd : Path;
  utcnow_isoformat : string;
  import_vector_store : outcome unit;
  VectorStore_new : string → outcome unit;
  VectorStore_load : string → outcome bool;
  VectorStore_search : string → string → Z → outcome (list SearchResult);
  import_treesitter_utils : outcome unit;
  parse_file : Path → outcome (list string)    (* the [imports] of the parse *)
}.

(** ** State and exceptions *)

Definition M (A : Type) : Type := World → outcome A * World.

Definition ret {A} (a : A) : M A := λ w, (Return a, w).

Definition bind {A B} (m : M A) (k : A → M B) : M B := λ w,
  match m w with
  | (Return a, w') => k a w'
  | (Raise e, w') => (Raise e, w')
  end.

Definition lift {A} (o : outcome A) : M A := λ w, (o, w).

(** [try: body / except Exception: handler] *)
Definition try_except {A} (body handler : M A) : M A := λ w,
  match body w with
  | (Return a, w') => (Return a, w')
  | (Raise _, w') => handler w'
  end.

#[global] Instance M_ret : MRet M := @ret.
#[global] Instance M_bind : MBind M := λ A B k m, bind m k.

(** The world after one more access is entered in the journal. *)
Definition journaled (e : event) (w : World) : World :=
  {| nodes := nodes w; readonly := readonly w; journal := journal w ++ [e] |}.

Definition record (e : event) : M unit := λ w, (Return tt, journaled e w).

(** [p.exists()] *)
Definition path_exists (p : string) : M bool := λ w,
  (Return (bool_decide (is_Some (nodes w !! p))), w).

(** [open(p, 'r', encoding='utf-8')] followed by [json.load]. *)
Definition json_load (p : string) : M pyval := λ w,
  match nodes w !! p with
  | Some (Readable _ (Some v)) => (Return v, w)
  | Some (Readable _ None) => (Raise ValueError, w)
  | _ => (Raise OSError, w)
  end.

(** [p.parent.mkdir(parents=True, exist_ok=True)], [open(p, 'w')] and
    [json.dump(v, f, indent=2)]: either the file cannot be created, or it
    afterwards holds the text printed for [v], which [json.load] reads
    back as [v]. *)
Definition written (v : pyval) (p : string) (w : World) : World :=
  {| nodes := <[p := Readable (Json.dumps v) (Some v)]> (nodes w);
     readonly := readonly w;
     journal := journal w ++ [CacheSave p] |}.

Definition json_dump (v : pyval) (p : string) : M unit := λ w,
  if bool_decide (p ∈ readonly w) then (Raise OSError, w)
  else (Return tt, written v p w).

(** ** The module *)

(** [root or find_project_root() or Path.cwd()]: a path object is always
    truthy. *)
Definition resolve_root (E : Env) (root : option Path) : Path :=
  match root with
  | Some r => r
  | None => default (cwd E) (find_project_root E)
  end.

Definition get_cache_path (E : Env) (root : option Path) : Path :=
  resolve_root E root // ".mcp" // "memory" // "context_cache.json".

Definition load_cache (E : Env) (root : option Path) : M ContextCache :=
  let cache_path := str (get_cache_path E root) in
  _ ← record (CacheLoad cache_path);
  found ← path_exists cache_path;
  if found : bool then
    try_except
      (data ← json_load cache_path; lift (from_dict data))
      (mret ContextCache_new)
  else mret ContextCache_new.

(** [save_cache] returns nothing; it assigns to the [timestamp] attribute
    of its argument, and the model returns the object as it leaves it. *)
Definition save_cache (E : Env) (cache : ContextCache) (root : option Path)
  : M ContextCache :=
  let cache_path := str (get_cache_path E root) in
  let cache := set_timestamp (PStr (utcnow_isoformat E +:+ "Z")) cache in
  _ ← json_dump (to_dict cache) cache_path;
  mret cache.

(** The update of [recent_files] in [track_file_access]:
    [if path_str in l: l.remove(path_str)], [l.insert(0, path_str)],
    [l[:20]].  A string or a dict supports [in] but has neither [remove]
    nor [insert]; the other values are no containers. *)
Definition touch_recent (path_str : string) (v : pyval) : outcome pyval :=
  match v with
  | PList l =>
      let l := if existsb (eq_str path_str) l
               then PyList.remove_first (eq_str path_str) l else l in
      let l := PStr path_str :: l in
      Return (PList (PyList.slice_to 20 l))
  | PStr _ | PDict _ => Raise AttributeError
  | PNone | PBool _ | PInt _ => Raise TypeError
  end.

(** [h[path_str] = h.get(path_str, 0) + 1]: only a dict has [get]; a
    count that is no number cannot be added to ([True] counts as 1). *)
Definition touch_hot (path_str : string) (v : pyval) : outcome pyval :=
  match v with
  | PDict d =>
      match default (PInt 0) (PyDict.get path_str d) with
      | PInt n => Return (PDict (PyDict.set path_str (PInt (n + 1)) d))
      | PBool b => Return (PDict (PyDict.set path_str (PInt (Z.b2z b + 1)) d))
      | _ => Raise TypeError
      end
  | _ => Raise AttributeError
  end.

Definition track_file_access (E : Env) (path : Path) (root : option Path)
  : M unit :=
  cache ← load_cache E root;
  let path_str := str path in
  (* Update recent files (max 20) *)
  recent ← lift (touch_recent path_str (recent_files cache));
  let cache := set_recent_files recent cache in
  (* Update hot files *)
  hot ← lift (touch_hot path_str (hot_files cache));
  let cache := set_hot_files hot cache in
  _ ← save_cache E cache root;
  mret tt.

(** [path = Path(file_path)], and [root / path] unless it is absolute. *)
Definition resolve (root : Path) (file_path : string) : Path :=
  let path := of_str file_path in
  if is_absolute path then path else joinpath root path.

(** The local variables [files] and [token_count] of the loops. *)
Definition acc : Type := list (string * string) * Z.

(** The body of the loops of [get_recent_context] and [get_hot_context]
    (the two are the same text): resolve the entry against [root], and if
    the path exists try to read its first [max_lines] lines; a failure to
    read is passed over.  [Path(file_path)] needs a string. *)
Definition visit (w : World) (root : Path) (max_lines : Z)
    (file_path : pyval) (a : acc) : outcome acc :=
  match file_path with
  | PStr s =>
      let path := resolve root s in
      match nodes w !! str path with
      | Some (Readable text _) =>
          let lines := PyList.slice_to max_lines (PyStr.readlines text) in
          let content := PyStr.join EmptyString lines in
          Return (a.1 ++ [(str path, content)], a.2 + PyStr.tokens content)
      | Some Unreadable => Return a
      | None => Return a
      end
  | _ => Raise TypeError
  end.

Fixpoint visit_all (w : World) (root : Path) (max_lines : Z)
    (entries : list pyval) (a : acc) : outcome acc :=
  match entries with
  | [] => Return a
  | file_path :: rest =>
      match visit w root max_lines file_path a with
      | Return a' => visit_all w root max_lines rest a'
      | Raise e => Raise e
      end
  end.

Definition collect (root : Path) (max_lines : Z) (entries : list pyval)
  : M acc := λ w, (visit_all w root max_lines entries ([], 0), w).

(** [cache.recent_files[:limit]] and the values the loop then ranges
    over: a list is sliced, a string is sliced and read character by
    character, anything else cannot be sliced. *)
Definition recent_slice (limit : Z) (v : pyval) : outcome (list pyval) :=
  match v with
  | PList l => Return (PyList.slice_to limit l)
  | PStr s =>
      Return (map (λ a, PStr (String a EmptyString))
                  (PyList.slice_to limit (list_ascii_of_string s)))
  | PNone | PBool _ | PInt _ | PDict _ => Raise TypeError
  end.

Definition get_recent_context (E : Env) (limit max_lines : Z)
    (root : option Path) : M ContextResult :=
  cache ← load_cache E root;
  let root := resolve_root E root in
  entries ← lift (recent_slice limit (recent_files cache));
  '(files, token_count) ← collect root max_lines entries;
  mret {| files := files; token_count := token_count; source := "recent" |}.

(** The sort key of [get_hot_context], when it is a number. *)
Definition count_of (v : pyval) : option Z :=
  match v with
  | PInt n => Some n
  | PBool b => Some (Z.b2z b)
  | _ => None
  end.

Definition str_of (v : pyval) : option string :=
  match v with PStr s => Some s | _ => None end.

(** [sorted(items, key=lambda x: x[1], reverse=True)].  Numbers are
    ordered by value and strings by code points; [None], dicts and values
    of different kinds are not ordered, and sorting two or more items
    compares each with another.  (Python also orders lists with lists,
    element by element; the model does not follow it there and lets that
    case raise as the unordered ones do.) *)
Definition sorted_by_count (items : list (string * pyval))
  : outcome (list (string * pyval)) :=
  if forallb (λ x, bool_decide (is_Some (count_of x.2))) items then
    Return (PyList.sort_by
              (λ y x, default 0 (count_of x.2) <? default 0 (count_of y.2)) items)
  else if forallb (λ x, bool_decide (is_Some (str_of x.2))) items then
    Return (PyList.sort_by
              (λ y x, String.ltb (default EmptyString (str_of x.2))
                                 (default EmptyString (str_of y.2)))
              items)
  else if (length items <=? 1)%nat then Return items
  else Raise TypeError.

(** [cache.hot_files.items()] *)
Definition hot_items (v : pyval) : outcome (list (string * pyval)) :=
  match v with
  | PDict d => Return d
  | _ => Raise AttributeError
  end.

Definition get_hot_context (E : Env) (limit max_lines : Z)
    (root : option Path) : M ContextResult :=
  cache ← load_cache E root;
  let root := resolve_root E root in
  (* Sort by access count *)
  items ← lift (hot_items (hot_files cache));
  sorted_files ← lift (sorted_by_count items);
  let entries := map (λ x, PStr x.1) (PyList.slice_to limit sorted_files) in
  '(files, token_count) ← collect root max_lines entries;
  mret {| files := files; token_count := token_count; source := "hot" |}.

(** The [try] block of [get_semantic_context].  The loop over the results
    cannot raise, so the block either ends with the collected files or
    raises before the first of them. *)
Definition semantic_lookup (E : Env) (root : Path) (query : string)
    (limit : Z) : M acc :=
  _ ← lift (import_vector_store E);
  let index_dir := str (root // ".mcp" // "vector_index") in
  _ ← lift (VectorStore_new E index_dir);
  _ ← record (IndexLoad index_dir);
  loaded ← lift (VectorStore_load E index_dir);
  if loaded : bool then
    _ ← record (IndexSearch index_dir);
    results ← lift (VectorStore_search E index_dir query limit);
    mret (foldl (λ (a : acc) result,
                   (a.1 ++ [(path (chunk result), content (chunk result))],
                    a.2 + PyStr.tokens (content (chunk result))))
                ([], 0) results)
  else mret ([], 0).

Definition get_semantic_context (E : Env) (query : string) (limit : Z)
    (root : option Path) : M ContextResult :=
  let root := resolve_root E root in
  '(files, token_count) ←
    try_except (semantic_lookup E root query limit) (mret ([], 0));
  (* Update cache with query *)
  cache ← load_cache E (Some root);
  let cache := set_last_query (PStr query) cache in
  _ ← save_cache E cache (Some root);
  mret {| files := files; token_count := token_count; source := "semantic" |}.

(** [imp.replace('from ', '').replace('import ', '').split()[0].split('.')] *)
Definition import_parts (imp : string) : outcome (list string) :=
  match PyStr.split (PyStr.replace "import " EmptyString
                       (PyStr.replace "from " EmptyString imp)) with
  | [] => Raise IndexError
  | w :: _ => Return (PyStr.split_on "." w)
  end.

(** The inner loop of [get_dependency_context],
    [for i in range(len(parts), 0, -1)], started at [i].  The division
    binds tighter than the addition, so the candidate is
    [(root / '/'.join(parts[:i])) + '.py'].  The loops return the local
    variables together with the way they ended, because the variables
    outlive an exception. *)
Fixpoint resolve_import (w : World) (root : Path) (parts : list string)
    (i : nat) (a : acc) : acc * outcome unit :=
  match i with
  | O => (a, Return tt)
  | S i' =>
      match add_str (root // PyStr.join "/" (take i parts)) ".py" with
      | Raise e => (a, Raise e)
      | Return possible_path =>
          match nodes w !! str possible_path with
          | Some (Readable text _) =>
              let content := PyStr.slice_to 2000 text in
              ((a.1 ++ [(str possible_path, content)],
                a.2 + PyStr.tokens content), Return tt)       (* break *)
          | Some Unreadable => (a, Return tt)                   (* break *)
          | None => resolve_import w root parts i' a
          end
      end
  end.

Fixpoint resolve_imports (w : World) (root : Path) (imports : list string)
    (a : acc) : acc * outcome unit :=
  match imports with
  | [] => (a, Return tt)
  | imp :: rest =>
      match import_parts imp with
      | Raise e => (a, Raise e)
      | Return parts =>
          match resolve_import w root parts (length parts) a with
          | (a', Return _) => resolve_imports w root rest a'
          | (a', Raise e) => (a', Raise e)
          end
      end
  end.

Definition get_dependency_context (E : Env) (file_path : Path)
    (root : option Path) : M ContextResult := λ w,
  let root := resolve_root E root in
  let '(files, token_count) :=
    match import_treesitter_utils E with
    | Raise _ => ([], 0)
    | Return _ =>
        match parse_file E file_path with
        | Raise _ => ([], 0)
        | Return imports => (resolve_imports w root imports ([], 0)).1
        end
    end in
  (Return {| files := files; token_count := token_count;
             source := "dependency" |}, w).

(** The three loops of [get_auto_context] over a source's files; the
    first does not test [path not in all_files]. *)
Fixpoint merge (check_new : bool) (token_budget : Z)
    (src : list (string * string))
    (all_files : list (string * string)) (tokens_used : Z)
  : list (string * string) * Z :=
  match src with
  | [] => (all_files, tokens_used)
  | (path, content) :: rest =>
      if (negb check_new || negb (PyDict.mem path all_files))
         && (tokens_used + PyStr.tokens content <? token_budget)
      then merge check_new token_budget rest
             (PyDict.set path content all_files)
             (tokens_used + PyStr.tokens content)
      else merge check_new token_budget rest all_files tokens_used
  end.

(** [get_auto_context] up to the formatting of its output: the files
    selected and the tokens counted. *)
Definition auto_select (E : Env) (task : string) (token_budget : Z)
    (root : option Path) : M (list (string * string) * Z) :=
  let root := resolve_root E root in
  (* 1. Recent files (highest priority) *)
  recent ← get_recent_context E 3 50 (Some root);
  let '(all_files, tokens_used) := merge false token_budget (files recent) [] 0 in
  (* 2. Semantic search if task provided *)
  '(all_files, tokens_used) ←
    (if negb (String.eqb task EmptyString) && (tokens_used <? token_budget) then
       semantic ← get_semantic_context E task 3 (Some root);
       mret (merge true token_budget (files semantic) all_files tokens_used)
     else mret (all_files, tokens_used));
  (* 3. Hot files *)
  if tokens_used <? token_budget then
    hot ← get_hot_context E 2 50 (Some root);
    mret (merge true token_budget (files hot) all_files tokens_used)
  else mret (all_files, tokens_used).

Definition newline : string := String PyStr.LF EmptyString.

(** The output format of [get_auto_context]. *)
Definition format_context (all_files : list (string * string))
    (tokens_used : Z) : string :=
  PyStr.join newline
    (["# Auto-Loaded Context";
      "# Files: " +:+ pretty (Z.of_nat (length all_files))
        +:+ " | Tokens: ~" +:+ pretty tokens_used;
      EmptyString]
     ++ flat_map (λ '(path, content),
                    ["## " +:+ name (of_str path);
                     "# " +:+ path;
                     "```python";
                     PyStr.slice_to 1500 content;
                     "```";
                     EmptyString]) all_files).

Definition get_auto_context (E : Env) (task : string) (token_budget : Z)
    (root : option Path) : M string :=
  '(all_files, tokens_used) ← auto_select E task token_budget root;
  mret (format_context all_files tokens_used).


(** The cache that an operation started in world [w] begins with. *)
Definition current_cache (E : Env) (root : option Path) (w : World)
  : ContextCache :=
  match (load_cache E root w).1 with
  | Return c => c
  | Raise _ => ContextCache_new
  end.

(** What [load_cache] makes of the node at the cache path. *)
Definition decoded (n : option fnode) : ContextCache :=
  match n with
  | Some (Readable _ (Some data)) =>
      match from_dict data with
      | Return c => c
      | Raise _ => ContextCache_new
      end
  | _ => ContextCache_new
  end.

(** What a listed name contributes to a context: if the file it names
    exists and can be read, its path and its first [max_lines] lines. *)
Definition excerpt (w : World) (root : Path) (max_lines : Z) (name : string)
  : option (string * string) :=
  match nodes w !! str (resolve root name) with
  | Some (Readable text _) =>
      Some (str (resolve root name),
            PyStr.join EmptyString (PyList.slice_to max_lines (PyStr.readlines text)))
  | _ => None
  end.

(** The whitespace tokens of a list of files. *)
Definition tokens_of (fs : list (string * string)) : Z :=
  foldr (λ pc n, PyStr.tokens pc.2 + n) 0 fs.

(** The results the vector store gives to [get_semantic_context]: those of
    the search when the module is imported, the store is created and loaded
    and the search returns; none otherwise. *)
Definition index_answer (E : Env) (root : Path) (query : string) (limit : Z)
  : list SearchResult :=
  let index_dir := str (root // ".mcp" // "vector_index") in
  match import_vector_store E with
  | Return _ =>
      match VectorStore_new E index_dir with
      | Return _ =>
          match VectorStore_load E index_dir with
          | Return true =>
              match VectorStore_search E index_dir query limit with
              | Return results => results
              | Raise _ => []
              end
          | _ => []
          end
      | Raise _ => []
      end
  | Raise _ => []
  end.

(** The accesses to the index that [get_semantic_context] makes. *)
Definition index_events (E : Env) (root : Path) : list event :=
  let index_dir := str (root // ".mcp" // "vector_index") in
  match import_vector_store E with
  | Return _ =>
      match VectorStore_new E index_dir with
      | Return _ =>
          match VectorStore_load E index_dir with
          | Return true => [IndexLoad index_dir; IndexSearch index_dir]
          | _ => [IndexLoad index_dir]
          end
      | Raise _ => []
      end
  | Raise _ => []
  end.

Definition journal_add (evs : list event) (w : World) : World :=
  {| nodes := nodes w; readonly := readonly w; journal := journal w ++ evs |}.

Definition hit_pair (x : SearchResult) : string * string :=
  (path (chunk x), content (chunk x)).

(** Values of the declared field types. *)
Definition str_list (names : list string) : pyval := PList (map PStr names).
Definition count_dict (counts : list (string * Z)) : pyval :=
  PDict (map (λ kv, (kv.1, PInt kv.2)) counts).

(** ** The search index, from its specification

    [scripts/vector_store.py] is not among the sources; the design document
    describes it, and this module follows that description. *)
Module IndexSpec.

(** Modelled from the spec: the IndexEntry of the data model, a chunk
    with its embedding and the fingerprint of its file at indexing time.
    The floating-point components of an embedding are taken as
    rationals. *)
Record IndexEntry := mkEntry {
  entry_chunk : Chunk;
  embedding : list Q;
  file_fingerprint : string
}.

Definition Qltb (a b : Q) : bool := negb (Qle_bool b a).

(** Modelled from the spec: the tie-break of Similarity Search,
    ascending by [(path, start_line)]. *)
Definition key_ltb (a b : SearchResult) : bool :=
  String.ltb (path (chunk a)) (path (chunk b))
  || String.eqb (path (chunk a)) (path (chunk b))
     && (start_line (chunk a) <? start_line (chunk b)).

(** Modelled from the spec: the ranking of Similarity Search, by score
    descending, then by the tie-break. *)
Definition ranks_before (y x : SearchResult) : bool :=
  Qltb (score x) (score y)
  || Qeq_bool (score x) (score y) && key_ltb y x.

(** Modelled from the spec: [search(query_text, k)] of Similarity Search
    (the function of [vector_store.py]).  The query is embedded, every
    stored embedding is scored against it, the results are put in ranking
    order as a full sort would, and the first [k] are returned; an empty
    query text gives an empty result.  The Embedding Provider [embed] and
    the similarity measure (the cosine, 0 for a zero-norm vector) are
    collaborators. *)
Definition search (embed : string → list Q)
    (similarity : list Q → list Q → Q)
    (index : list IndexEntry) (query_text : string) (k : nat)
  : list SearchResult :=
  if String.eqb query_text EmptyString then []
  else
    let q := embed query_text in
    take k (PyList.sort_by ranks_before
              (map (λ e, {| chunk := entry_chunk e;
                            score := similarity q (embedding e) |}) index)).

(** The order the results are claimed to be in. *)
Definition key_le (a b : SearchResult) : Prop :=
  String.ltb (path (chunk a)) (path (chunk b)) = true
  ∨ (path (chunk a) = path (chunk b)
     ∧ start_line (chunk a) ≤ start_line (chunk b)).

Definition rank_le (a b : SearchResult) : Prop :=
  (score b < score a)%Q ∨ ((score a == score b)%Q ∧ key_le a b).

(** An environment in which the vector store is the one specified, over
    a loaded index. *)
Definition with_store (E : Env) (embed : string → list Q)
    (similarity : list Q → list Q → Q) (index : list IndexEntry) : Env :=
  {| find_project_root := find_project_root E;
     cwd := cwd E;
     utcnow_isoformat := utcnow_isoformat E;
     import_vector_store := Return tt;
     VectorStore_new := λ _, Return tt;
     VectorStore_load := λ _, Return true;
     VectorStore_search := λ _ query k,
       Return (search embed similarity index query (Z.to_nat k));
     import_treesitter_utils := import_treesitter_utils E;
     parse_file := parse_file E |}.

(** Modelled from the spec: the summary of a reindex. *)
Record Summary := mkSummary {
  added : nat;
  updated : nat;
  removed : nat;
  unchanged : nat;
  failed : nat
}.

(** Modelled from the spec: the one failure that aborts a reindex, a
    configuration without any Embedding Provider. *)
Inductive error_kind := NoEmbeddingProvider.

(** Modelled from the spec: the collaborators of the Incremental
    Updater.  [read_source] is [None] for a file that cannot be read;
    the chunker is total (a parse failure degrades to windows); a call
    of the provider takes the attempt number and a batch of texts and may
    fail. *)
Record Collaborators := mkCollaborators {
  enumerate : string → list string;
  read_source : string → option string;
  fingerprint : string → string;
  chunker : string → string → list Chunk;
  provider : option (nat → list string → option (list (list Q)));
  retry_budget : nat
}.

(** The index entries and the embedding cache, with the running
    summary. *)
Record Store := mkStore {
  entries : list IndexEntry;
  cache : list (string * list Q);
  summary : Summary
}.

Definition bump_added (s : Summary) : Summary :=
  {| added := S (added s); updated := updated s; removed := removed s;
     unchanged := unchanged s; failed := failed s |}.
Definition bump_updated (s : Summary) : Summary :=
  {| added := added s; updated := S (updated s); removed := removed s;
     unchanged := unchanged s; failed := failed s |}.
Definition bump_unchanged (s : Summary) : Summary :=
  {| added := added s; updated := updated s; removed := removed s;
     unchanged := S (unchanged s); failed := failed s |}.
Definition add_failed (n : nat) (s : Summary) : Summary :=
  {| added := added s; updated := updated s; removed := removed s;
     unchanged := unchanged s; failed := (failed s + n)%nat |}.
Definition add_removed (n : nat) (s : Summary) : Summary :=
  {| added := added s; updated := updated s; removed := (removed s + n)%nat;
     unchanged := unchanged s; failed := failed s |}.

(** Modelled from the spec: a batch is retried while the budget lasts;
    an answer of the wrong length is a failure too. *)
Fixpoint embed_retry (call : nat → list string → option (list (list Q)))
    (budget attempt : nat) (texts : list string)
  : option (list (list Q)) :=
  match budget with
  | O => None
  | S budget' =>
      match call attempt texts with
      | Some vs =>
          if (length vs =? length texts)%nat then Some vs
          else embed_retry call budget' (S attempt) texts
      | None => embed_retry call budget' (S attempt) texts
      end
  end.

(** Modelled from the spec: the chunks to embed, one for each content
    hash that is neither in the cache nor met earlier in the batch. *)
Fixpoint cache_misses (seen : list string) (chunks : list Chunk)
  : list Chunk :=
  match chunks with
  | [] => []
  | c :: rest =>
      if existsb (String.eqb (content_hash c)) seen
      then cache_misses seen rest
      else c :: cache_misses (content_hash c :: seen) rest
  end.

Definition of_path (p : string) (e : IndexEntry) : bool :=
  String.eqb (path (entry_chunk e)) p.

(** Modelled from the spec: steps 2 and 3 of the Incremental Updater for
    one file.  An unreadable file is left out of the index and counted
    as failed; a file whose fingerprint matches all its entries is
    unchanged; otherwise its entries are replaced, the provider being
    called for the chunks the cache misses, and a chunk left without
    embedding is skipped and counted as failed. *)
Definition reindex_file (C : Collaborators)
    (call : nat → list string → option (list (list Q)))
    (st : Store) (p : string) : Store :=
  let old := List.filter (of_path p) (entries st) in
  let others := List.filter (λ e, negb (of_path p e)) (entries st) in
  match read_source C p with
  | None =>
      {| entries := others; cache := cache st;
         summary := add_failed 1 (summary st) |}
  | Some text =>
      let fp := fingerprint C text in
      if negb (Nat.eqb (length old) 0)
         && forallb (λ e, String.eqb (file_fingerprint e) fp) old
      then {| entries := entries st; cache := cache st;
              summary := bump_unchanged (summary st) |}
      else
        let chunks := chunker C p text in
        let misses := cache_misses (PyDict.keys (cache st)) chunks in
        let cache' :=
          match embed_retry call (retry_budget C) 0 (map content misses) with
          | Some vs => cache st ++ zip (map content_hash misses) vs
          | None => cache st
          end in
        let fresh :=
          omap (λ c, (λ v, {| entry_chunk := c; embedding := v;
                              file_fingerprint := fp |})
                     <$> PyDict.get (content_hash c) cache') chunks in
        let s := add_failed (length chunks - length fresh) (summary st) in
        {| entries := others ++ fresh; cache := cache';
           summary := if Nat.eqb (length old) 0 then bump_added s
                      else bump_updated s |}
  end.

(** Modelled from the spec: step 4, the entries of paths that are no
    longer on disk are removed, one count per path. *)
Definition drop_missing (listing : list string) (st : Store) : Store :=
  let gone e := negb (existsb (String.eqb (path (entry_chunk e))) listing) in
  let paths := remove_dups (map (λ e, path (entry_chunk e))
                                (List.filter gone (entries st))) in
  {| entries := List.filter (λ e, negb (gone e)) (entries st);
     cache := cache st;
     summary := add_removed (length paths) (summary st) |}.

Definition no_counts : Summary :=
  {| added := 0; updated := 0; removed := 0; unchanged := 0; failed := 0 |}.

(** Modelled from the spec: [reindex(project_root)] of the Incremental
    Updater (the function of [vector_store.py]): without a provider the
    operation aborts; otherwise every enumerated file is visited in
    turn, the missing paths are dropped, and the summary is returned with
    the index and cache to persist. *)
Definition reindex (C : Collaborators) (project_root : string)
    (index : list IndexEntry) (cache0 : list (string * list Q))
  : error_kind + Summary * (list IndexEntry * list (string * list Q)) :=
  match provider C with
  | None => inl NoEmbeddingProvider
  | Some call =>
      let listing := enumerate C project_root in
      let st := foldl (reindex_file C call)
                      {| entries := index; cache := cache0;
                         summary := no_counts |} listing in
      let st := drop_missing listing st in
      inr (summary st, (entries st, cache st))
  end.

(** The files a summary accounts for as read. *)
Definition visited (s : Summary) : nat :=
  (added s + updated s + unchanged s)%nat.

(** The files of a listing that cannot be read. *)
Definition unreadable (C : Collaborators) (listing : list string) : nat :=
  length (List.filter (λ p, bool_decide (read_source C p = None)) listing).

End IndexSpec.

(** ** Sample worlds *)
Module Sample.

Definition hit : SearchResult :=
  {| chunk := {| path := "a.py"; start_line := 1; end_line := 1;
                 content := "def f(): pass"; content_hash := "h1" |};
     score := 1%Q |}.

(** A project at [/proj] with a working vector store and parser. *)
Definition env : Env :=
  {| find_project_root := None;
     cwd := of_str "/proj";
     utcnow_isoformat := "2025-01-01T00:00:00";
     import_vector_store := Return tt;
     VectorStore_new := λ _, Return tt;
     VectorStore_load := λ _, Return true;
     VectorStore_search := λ _ _ _, Return [hit];
     import_treesitter_utils := Return tt;
     parse_file := λ _, Return ["from os.path import join"; "import sys"] |}.

Definition cache_file : string := "/proj/.mcp/memory/context_cache.json".

Definition a_py : string :=
  "x = 1" +:+ newline +:+ "y = 2" +:+ newline +:+ "z = 3" +:+ newline.

Definition sources : gmap string fnode :=
  {[ "/proj/a.py" := Readable a_py None; "/proj/b.py" := Unreadable ]}.

(** No cache file yet. *)
Definition fresh : World :=
  {| nodes := sources; readonly := ∅; journal := [] |}.




(** A cache naming an unreadable file, a missing file and a readable
    one. *)
Definition used_cache : ContextCache :=
  {| recent_files := str_list ["b.py"; "gone.py"; "a.py"];
     hot_files := count_dict [("b.py", 1); ("a.py", 2); ("gone.py", 2)];
     last_query := PStr "find f"; last_task := PStr "fix f";
     timestamp := PStr "2024-12-31T23:59:59Z" |}.

Definition used : World :=
  {| nodes := <[cache_file := Readable (Json.dumps (to_dict used_cache))
                                       (Some (to_dict used_cache))]> sources;
     readonly := ∅; journal := [] |}.

End Sample.

(** ** The lifecycle of the cache, as statements about the journal *)





(** The budget accounting of [get_auto_context]: the running total is 0
    with no file, below the budget otherwise. *)
Definition within_budget (token_budget : Z)
    (all_files : list (string * string)) (tokens_used : Z) : Prop :=
  (all_files = [] ∧ tokens_used = 0)
  ∨ (all_files ≠ [] ∧ tokens_used < token_budget).


(** ** The command lines

    [main] of [scripts/autocontext.py] and [main] of [mcp.py] read
    [sys.argv] and print.  [Console] comes from [scripts/utils.py], which
    is not among the sources, so a call of [Console.header] or
    [Console.info] is recorded with its argument; the text of an
    exception is not modelled, so a line that ends with it is recorded
    with the exception. *)
Inductive printed :=
| Text (s : string)                      (* [print(s)] *)
| Header (s : string)                    (* [Console.header(s)] *)
| Info (s : string)                      (* [Console.info(s)] *)
| HelpText                               (* [show_help()] *)
| Failure (line : string) (e : exn).     (* [print(f"{line}{e}")] *)

Record Process := mkProcess {
  argv : list string;          (* [sys.argv] *)
  stdout : list printed;
  world : World
}.

Definition CLI (A : Type) : Type := Process → outcome A * Process.

#[global] Instance CLI_ret : MRet CLI := λ A a p, (Return a, p).
#[global] Instance CLI_bind : MBind CLI := λ A B k m p,
  match m p with
  | (Return a, p') => k a p'
  | (Raise e, p') => (Raise e, p')
  end.

Definition print (x : printed) : CLI unit := λ p,
  (Return tt, {| argv := argv p; stdout := stdout p ++ [x]; world := world p |}).

Definition print_all (xs : list printed) : CLI unit := λ p,
  (Return tt, {| argv := argv p; stdout := stdout p ++ xs; world := world p |}).

Definition get_argv : CLI (list string) := λ p, (Return (argv p), p).

Definition set_argv (a : list string) : CLI unit := λ p,
  (Return tt, {| argv := a; stdout := stdout p; world := world p |}).

(** An operation of the module, run by the process. *)
Definition on_world {A} (m : M A) : CLI A := λ p,
  let '(o, w') := m (world p) in
  (o, {| argv := argv p; stdout := stdout p; world := w' |}).

(** [[a for a in sys.argv[1:] if not a.startswith('-')]] *)
Definition positional (argv : list string) : list string :=
  List.filter (λ a, negb (String.prefix "-" a)) (drop 1 argv).

(** [flag in sys.argv] *)
Definition has_flag (flag : string) (argv : list string) : bool :=
  existsb (String.eqb flag) argv.

(** [main] of [scripts/autocontext.py]. *)
Definition autocontext_main (E : Env) : CLI Z :=
  _ ← print (Header "Auto-Context Loader");
  argv ← get_argv;
  let args := positional argv in
  let root := default (cwd E) (find_project_root E) in
  if has_flag "--recent" argv then
    result ← on_world (get_recent_context E 5 50 (Some root));
    _ ← print (Info ("Recent files: "
                     +:+ pretty (Z.of_nat (length (files result)))));
    _ ← print_all (map (λ pc, Text ("  - " +:+ pc.1)) (files result));
    mret 0
  else if has_flag "--hot" argv then
    result ← on_world (get_hot_context E 5 50 (Some root));
    _ ← print (Info ("Hot files: "
                     +:+ pretty (Z.of_nat (length (files result)))));
    _ ← print_all (map (λ pc, Text ("  - " +:+ pc.1)) (files result));
    mret 0
  else if has_flag "--auto" argv || bool_decide (args = []) then
    let task := match args with
                | [] => EmptyString
                | _ => PyStr.join " " args
                end in
    context ← on_world (get_auto_context E task 4000 (Some root));
    _ ← print (Text context);
    mret 0
  else
    (* Semantic search with query *)
    let query := PyStr.join " " args in
    result ← on_world (get_semantic_context E query 5 (Some root));
    _ ← print (Info ("Found " +:+ pretty (Z.of_nat (length (files result)))
                     +:+ " relevant files for: " +:+ query));
    _ ← print_all (flat_map (λ pc : string * string,
                               [Text (newline +:+ "## " +:+ pc.1);
                                Text (PyStr.slice_to 500 pc.2)])
                            (files result));
    mret 0.

(** ** The tools runner ([mcp.py]) *)
Module Mcp.

(** Map commands to modules *)
Definition COMMANDS : list (string * string) :=
  [ (* Original tools *)
    ("test", "auto_test"); ("docs", "auto_docs"); ("deadcode", "dead_code");
    ("deps", "deps"); ("summarize", "summarize"); ("changelog", "changelog");
    ("review", "review");
    (* Phase 2 tools *)
    ("context", "context"); ("refactor", "refactor"); ("apidocs", "api_docs");
    ("coverage", "doc_coverage"); ("security", "security");
    ("profile", "profile"); ("find", "finder"); ("errors", "errors");
    ("migrate", "migrate"); ("architecture", "architecture");
    ("arch", "architecture"); ("fix", "fix");
    (* Semantic *)
    ("index", "vector_store"); ("search", "vector_store");
    ("pattern", "astgrep"); ("parse", "treesitter_utils");
    ("embed", "embeddings");
    (* Automation *)
    ("watch", "watcher"); ("autocontext", "autocontext");
    ("auto", "autocontext");
    (* Advanced indexes *)
    ("index-all", "index_all"); ("git-history", "git_index");
    ("blame", "git_index"); ("todos", "todo_index"); ("impact", "impact");
    ("test-coverage", "coverage_index"); ("doc-index", "doc_index");
    ("config-index", "config_index");
    (* AI Enhancements *)
    ("remember", "memory"); ("recall", "memory"); ("forget", "memory");
    ("learn", "learning"); ("predict-bugs", "predict");
    ("risk-score", "predict"); ("search-all", "multi_repo");
    ("repos", "multi_repo"); ("github-action", "cicd"); ("pipeline", "cicd");
    ("test-gen", "test_gen");
    (* Setup & Automation *)
    ("setup", "setup"); ("warm", "warm"); ("auto-learn", "auto_learn") ].

(** What importing a module of [scripts] gives: its [main], if it has
    one.  The value a [main] returns is any Python value. *)
Record Tool := mkTool { tool_main : option (CLI pyval) }.

(** [__import__(f'scripts.{module_name}', fromlist=[module_name])], by
    module name. *)
Definition Host : Type := string → outcome Tool.

(** The truth value of a Python value. *)
Definition truthy (v : pyval) : bool :=
  match v with
  | PNone => false
  | PBool b => b
  | PInt n => negb (n =? 0)
  | PStr s => negb (String.eqb s EmptyString)
  | PList l => negb (bool_decide (l = []))
  | PDict d => negb (bool_decide (d = []))
  end.

Definition show_help : CLI unit := print HelpText.

(** The [try] block of [main]. *)
Definition run_tool (H : Host) (module_name : string) (args : list string)
  : CLI pyval :=
  module ← (λ p, (H ("scripts." +:+ module_name), p)) : CLI Tool;
  _ ← set_argv (("scripts/" +:+ module_name +:+ ".py") :: args);
  match tool_main module with
  | Some tool =>
      v ← tool;
      mret (if truthy v then v else PInt 0)
  | None =>
      _ ← print (Text ("[FAIL] Module " +:+ module_name
                       +:+ " has no main function"));
      mret (PInt 1)
  end.

(** [main] of [mcp.py]. *)
Definition main (H : Host) : CLI pyval := λ p,
  match argv p with
  | _ :: command :: args =>
      if existsb (String.eqb command) ["help"; "-h"; "--help"] then
        (_ ← show_help; mret (PInt 0)) p
      else
        match PyDict.get command COMMANDS with
        | None =>
            (_ ← print (Text ("[FAIL] Unknown command: " +:+ command));
             _ ← show_help;
             mret (PInt 1)) p
        | Some module_name =>
            match run_tool H module_name args p with
            | (Return v, p') => (Return v, p')
            | (Raise ImportError, p') =>
                (_ ← print (Failure ("[FAIL] Could not import "
                                     +:+ module_name +:+ ": ") ImportError);
                 mret (PInt 1)) p'
            | (Raise e, p') =>
                (_ ← print (Failure ("[FAIL] Error running "
                                     +:+ command +:+ ": ") e);
                 mret (PInt 1)) p'
            end
        end
  | _ => (_ ← show_help; mret (PInt 0)) p
  end.

(** The module [scripts.autocontext], as the runner sees it. *)
Definition autocontext_tool (E : Env) : Tool :=
  {| tool_main := Some (v ← autocontext_main E; mret (PInt v)) |}.

End Mcp.


(** A [scripts] package that holds this module only. *)
Definition sample_host : Mcp.Host := λ module,
  if String.eqb module "scripts.autocontext"
  then Return (Mcp.autocontext_tool Sample.env)
  else Raise ImportError.

(** The runner started from a shell in the sample project. *)
Definition sample_process (argv : list string) (w : World) : Process :=
  {| argv := argv; stdout := []; world := w |}.

(** * Properties *)

Ltac run :=
  unfold mbind, M_bind, bind, mret, M_ret, ret, lift, try_except, record,
    path_exists, json_load, json_dump; simpl.

(** ** Loading and saving *)
Section LoadSave.
Context (E : Env) (root : option Path).

Let cp : string := str (get_cache_path E root).

Lemma load_cache_run w :
  load_cache E root w
  = (Return (decoded (nodes w !! cp)), journaled (CacheLoad cp) w).
Proof.
  unfold load_cache. fold cp. run.
  destruct (nodes w !! cp) as [[|text [data|]]|] eqn:Hn; simpl;
    rewrite ?Hn; simpl; try reflexivity.
  destruct (from_dict data); reflexivity.
Qed.

Lemma current_cache_decoded w :
  current_cache E root w = decoded (nodes w !! cp).
Proof. unfold current_cache. rewrite load_cache_run. reflexivity. Qed.

Lemma from_to_dict c : from_dict (to_dict c) = Return c.
Proof. destruct c; reflexivity. Qed.

Lemma save_cache_run w c :
  cp ∉ readonly w →
  save_cache E c root w
  = (Return (set_timestamp (PStr (utcnow_isoformat E +:+ "Z")) c),
     written (to_dict (set_timestamp (PStr (utcnow_isoformat E +:+ "Z")) c))
             cp w).
Proof.
  intros Hw. unfold save_cache. fold cp. run.
  rewrite bool_decide_eq_false_2 by exact Hw. reflexivity.
Qed.

Lemma save_cache_fails w c :
  cp ∈ readonly w → save_cache E c root w = (Raise OSError, w).
Proof.
  intros Hw. unfold save_cache. fold cp. run.
  rewrite bool_decide_eq_true_2 by exact Hw. reflexivity.
Qed.

Lemma decoded_written v w :
  decoded (nodes (written v cp w) !! cp)
  = match from_dict v with Return c => c | Raise _ => ContextCache_new end.
Proof. unfold written, decoded; simpl. rewrite lookup_insert_eq. reflexivity. Qed.

End LoadSave.





(** ** Lists and dicts of the declared types *)
Section Typed.

Lemma existsb_eq_str p names :
  existsb (eq_str p) (map PStr names) = existsb (λ s, String.eqb s p) names.
Proof. induction names as [|n names IH]; simpl; [reflexivity|]. by rewrite IH. Qed.

Lemma remove_first_eq_str p names :
  PyList.remove_first (eq_str p) (map PStr names)
  = map PStr (PyList.remove_first (λ s, String.eqb s p) names).
Proof.
  induction names as [|n names IH]; simpl; [reflexivity|].
  destruct (String.eqb n p); simpl; [reflexivity|]. by rewrite IH.
Qed.

Lemma slice_to_map {A B} (f : A → B) n l :
  PyList.slice_to n (map f l) = map f (PyList.slice_to n l).
Proof.
  unfold PyList.slice_to. rewrite length_map.
  destruct (0 <=? n); symmetry; apply fmap_take.
Qed.

Lemma slice_to_nonneg {A} n (l : list A) :
  0 ≤ n → PyList.slice_to n l = take (Z.to_nat n) l.
Proof.
  intros Hn. unfold PyList.slice_to.
  destruct (Z.leb_spec 0 n); [reflexivity|lia].
Qed.

(** The new [recent_files] of [track_file_access], on names. *)
Lemma touch_recent_typed p names :
  touch_recent p (str_list names)
  = Return (str_list
      (take 20 (p :: if existsb (λ s, String.eqb s p) names
                     then PyList.remove_first (λ s, String.eqb s p) names
                     else names))).
Proof.
  unfold touch_recent, str_list.
  rewrite existsb_eq_str, remove_first_eq_str.
  change (PStr p :: ?l) with (map PStr [p] ++ l).
  destruct (existsb _ names); rewrite <- map_app, slice_to_map;
    rewrite slice_to_nonneg by lia; reflexivity.
Qed.

Lemma get_count_dict k counts :
  PyDict.get k (map (λ kv : string * Z, (kv.1, PInt kv.2)) counts)
  = PInt <$> PyDict.get k counts.
Proof.
  induction counts as [|[k' n] counts IH]; simpl; [reflexivity|].
  destruct (String.eqb k' k); [reflexivity|exact IH].
Qed.

Lemma set_count_dict k n counts :
  PyDict.set k (PInt n) (map (λ kv : string * Z, (kv.1, PInt kv.2)) counts)
  = map (λ kv : string * Z, (kv.1, PInt kv.2)) (PyDict.set k n counts).
Proof.
  induction counts as [|[k' n'] counts IH]; simpl; [reflexivity|].
  destruct (String.eqb k' k); simpl; [reflexivity|]. by rewrite IH.
Qed.

(** The new [hot_files] of [track_file_access], on counts. *)
Lemma touch_hot_typed p counts :
  touch_hot p (count_dict counts)
  = Return (count_dict
      (PyDict.set p (default 0 (PyDict.get p counts) + 1) counts)).
Proof.
  unfold touch_hot, count_dict. rewrite get_count_dict.
  destruct (PyDict.get p counts); simpl; by rewrite set_count_dict.
Qed.



Lemma keys_set {V} k (v : V) d :
  PyDict.keys (PyDict.set k v d)
  = if PyDict.mem k d then PyDict.keys d else PyDict.keys d ++ [k].
Proof.
  unfold PyDict.mem, PyDict.keys.
  induction d as [|[k' v'] d IH]; simpl; [reflexivity|].
  destruct (String.eqb_spec k' k) as [->|Hk]; simpl; [reflexivity|].
  rewrite IH. by destruct (PyDict.get k d).
Qed.




End Typed.

(** ** Tracking an access *)
Section Track.
Context (E : Env) (root : option Path).

Let cp : string := str (get_cache_path E root).
Let stamp : pyval := PStr (utcnow_isoformat E +:+ "Z").

Lemma track_file_access_run w (p : Path) names counts :
  cp ∉ readonly w →
  recent_files (current_cache E root w) = str_list names →
  hot_files (current_cache E root w) = count_dict counts →
  let names' :=
    take 20 (str p :: if existsb (λ s, String.eqb s (str p)) names
                      then PyList.remove_first (λ s, String.eqb s (str p)) names
                      else names) in
  let counts' :=
    PyDict.set (str p) (default 0 (PyDict.get (str p) counts) + 1) counts in
  let c' :=
    set_timestamp stamp
      (set_hot_files (count_dict counts')
         (set_recent_files (str_list names') (current_cache E root w))) in
  track_file_access E p root w
  = (Return tt, written (to_dict c') cp (journaled (CacheLoad cp) w)).
Proof.
  intros Hw Hr Hh names' counts' c'.
  unfold track_file_access. run.
  rewrite load_cache_run. fold cp.
  rewrite current_cache_decoded in Hr, Hh. fold cp in Hr, Hh.
  rewrite Hr, touch_recent_typed. simpl.
  rewrite Hh, touch_hot_typed. simpl.
  rewrite save_cache_run by exact Hw.
  subst c'. rewrite current_cache_decoded. reflexivity.
Qed.

End Track.



(** ** Recent and hot files *)
Section Collect.
Context (E : Env) (root : option Path).

Let cp : string := str (get_cache_path E root).
Let r : Path := resolve_root E root.

Lemma visit_name w max_lines n (a : acc) :
  visit w r max_lines (PStr n) a
  = Return match excerpt w r max_lines n with
           | Some pc => (a.1 ++ [pc], a.2 + PyStr.tokens pc.2)
           | None => a
           end.
Proof.
  unfold visit, excerpt.
  destruct (nodes w !! str (resolve r n)) as [[|text doc]|]; reflexivity.
Qed.

Lemma visit_all_names w max_lines names (a : acc) :
  visit_all w r max_lines (map PStr names) a
  = Return (a.1 ++ omap (excerpt w r max_lines) names,
            a.2 + tokens_of (omap (excerpt w r max_lines) names)).
Proof.
  revert a. induction names as [|n names IH]; intros [fs tc].
  - cbn. rewrite app_nil_r. do 3 f_equal. lia.
  - cbn [map visit_all]. rewrite visit_name. cbn [omap list_omap].
    destruct (excerpt w r max_lines n) as [pc|]; rewrite IH; cbn [fst snd].
    + rewrite <- app_assoc. do 2 f_equal. unfold tokens_of. simpl. lia.
    + reflexivity.
Qed.

Lemma get_recent_context_run w limit max_lines names :
  recent_files (current_cache E root w) = str_list names →
  let fs := omap (excerpt w r max_lines) (PyList.slice_to limit names) in
  get_recent_context E limit max_lines root w
  = (Return {| files := fs; token_count := tokens_of fs; source := "recent" |},
     journaled (CacheLoad cp) w).
Proof.
  intros Hr fs. unfold get_recent_context. run.
  rewrite load_cache_run. fold cp. fold r.
  rewrite current_cache_decoded in Hr. fold cp in Hr. rewrite Hr.
  unfold str_list, recent_slice. rewrite slice_to_map.
  unfold collect. change (nodes (journaled _ w)) with (nodes w).
  rewrite visit_all_names. simpl.
  replace (excerpt (journaled (CacheLoad cp) w)) with (excerpt w) by reflexivity.
  reflexivity.
Qed.

Lemma sort_by_map {A B} (f : A → B) (before : B → B → bool) l :
  PyList.sort_by before (map f l)
  = map f (PyList.sort_by (λ y x, before (f y) (f x)) l).
Proof.
  induction l as [|x l IH]; simpl; [reflexivity|]. rewrite IH.
  generalize (PyList.sort_by (λ y x, before (f y) (f x)) l). intros s.
  induction s as [|y s IHs]; simpl; [reflexivity|].
  destruct (before (f y) (f x)); simpl; [by rewrite IHs|reflexivity].
Qed.

Lemma sorted_by_count_typed counts :
  sorted_by_count (map (λ kv : string * Z, (kv.1, PInt kv.2)) counts)
  = Return (map (λ kv : string * Z, (kv.1, PInt kv.2))
                (PyList.sort_by (λ y x : string * Z, x.2 <? y.2) counts)).
Proof.
  unfold sorted_by_count.
  assert (forallb (λ x : string * pyval, bool_decide (is_Some (count_of x.2)))
            (map (λ kv : string * Z, (kv.1, PInt kv.2)) counts) = true) as ->.
  { induction counts as [|kv counts IH]; simpl; [reflexivity|exact IH]. }
  by rewrite sort_by_map.
Qed.

Lemma get_hot_context_run w limit max_lines counts :
  hot_files (current_cache E root w) = count_dict counts →
  let ranked := PyList.sort_by (λ y x : string * Z, x.2 <? y.2) counts in
  let fs := omap (excerpt w r max_lines)
                 (PyList.slice_to limit (map fst ranked)) in
  get_hot_context E limit max_lines root w
  = (Return {| files := fs; token_count := tokens_of fs; source := "hot" |},
     journaled (CacheLoad cp) w).
Proof.
  intros Hh ranked fs. unfold get_hot_context. run.
  rewrite load_cache_run. fold cp. fold r.
  rewrite current_cache_decoded in Hh. fold cp in Hh. rewrite Hh.
  unfold count_dict, hot_items. rewrite sorted_by_count_typed. fold ranked.
  rewrite slice_to_map, map_map. simpl.
  unfold collect. change (nodes (journaled _ w)) with (nodes w).
  rewrite <- (map_map fst PStr), visit_all_names. simpl.
  rewrite <- slice_to_map.
  replace (excerpt (journaled (CacheLoad cp) w)) with (excerpt w) by reflexivity.
  reflexivity.
Qed.

End Collect.



(** ** Merging under a budget *)
Section Merge.
Context (token_budget : Z).

Lemma mem_false_keys {V} k (d : list (string * V)) :
  PyDict.mem k d = false ↔ k ∉ PyDict.keys d.
Proof.
  unfold PyDict.mem, PyDict.keys.
  induction d as [|[k' v] d IH]; simpl.
  - split; [intros _; apply not_elem_of_nil|reflexivity].
  - rewrite not_elem_of_cons.
    destruct (String.eqb_spec k' k) as [->|Hk]; simpl.
    + split; [discriminate|intros [? _]; congruence].
    + rewrite IH. split; [intros ?; split; [congruence|assumption]|tauto].
Qed.

Lemma set_new {V} k (v : V) d :
  PyDict.mem k d = false → PyDict.set k v d = d ++ [(k, v)].
Proof.
  unfold PyDict.mem.
  induction d as [|[k' v'] d IH]; simpl; [reflexivity|].
  destruct (String.eqb k' k); [discriminate|].
  intros H. by rewrite IH.
Qed.

Lemma set_nonempty {V} k (v : V) d : PyDict.set k v d ≠ [].
Proof.
  destruct d as [|[k' v'] d]; simpl; [|destruct (String.eqb k' k)];
    discriminate.
Qed.

Lemma NoDup_keys_set {V} k (v : V) d :
  NoDup (PyDict.keys d) → NoDup (PyDict.keys (PyDict.set k v d)).
Proof.
  intros Hd. rewrite keys_set. destruct (PyDict.mem k d) eqn:Hm; [exact Hd|].
  apply NoDup_app. split; [exact Hd|]. split.
  - intros x Hx Hx'. apply list_elem_of_singleton in Hx' as ->.
    by apply mem_false_keys in Hm.
  - apply NoDup_singleton.
Qed.

Lemma elem_of_set {V} k (v : V) d kv :
  kv ∈ PyDict.set k v d → kv = (k, v) ∨ kv ∈ d.
Proof.
  induction d as [|[k' v'] d IH]; simpl.
  - intros ->%list_elem_of_singleton. by left.
  - destruct (String.eqb k' k).
    + intros [->|H]%elem_of_cons; [by left|right; by right].
    + intros [->|H]%elem_of_cons; [right; by left|].
      destruct (IH H); [by left|right; by right].
Qed.

(** The first loop: entries come from the source, keys stay distinct. *)
Lemma merge_first src : ∀ all_files tokens_used,
  NoDup (PyDict.keys all_files) →
  within_budget token_budget all_files tokens_used →
  let out := merge false token_budget src all_files tokens_used in
  NoDup (PyDict.keys out.1)
  ∧ within_budget token_budget out.1 out.2
  ∧ ∀ kv, kv ∈ out.1 → kv ∈ all_files ∨ kv ∈ src.
Proof.
  induction src as [|[k c] src IH]; intros fs t Hnd Hb; simpl.
  - repeat split; [exact Hnd|exact Hb|by left].
  - destruct (Z.ltb_spec (t + PyStr.tokens c) token_budget) as [Hlt|Hge]; simpl.
    + destruct (IH (PyDict.set k c fs) (t + PyStr.tokens c)) as (H1 & H2 & H3).
      * by apply NoDup_keys_set.
      * right. split; [apply set_nonempty|exact Hlt].
      * repeat split; [exact H1|exact H2|].
        intros kv Hkv. destruct (H3 kv Hkv) as [Hs|Hs].
        -- destruct (elem_of_set _ _ _ _ Hs) as [->|?];
             [right; by left|by left].
        -- right. by right.
    + destruct (IH fs t Hnd Hb) as (H1 & H2 & H3).
      repeat split; [exact H1|exact H2|].
      intros kv Hkv. destruct (H3 kv Hkv); [by left|right; by right].
Qed.

(** The later loops: what is there stays as it is, and the files added
    come after it, in the order of the source. *)
Lemma merge_later src : ∀ all_files tokens_used,
  NoDup (PyDict.keys all_files) →
  within_budget token_budget all_files tokens_used →
  let out := merge true token_budget src all_files tokens_used in
  NoDup (PyDict.keys out.1)
  ∧ within_budget token_budget out.1 out.2
  ∧ ∃ more, out.1 = all_files ++ more ∧ sublist more src.
Proof.
  induction src as [|[k c] src IH]; intros fs t Hnd Hb; simpl.
  - repeat split; [exact Hnd|exact Hb|].
    exists []. by rewrite app_nil_r.
  - destruct (PyDict.mem k fs) eqn:Hm; simpl.
    { destruct (IH fs t Hnd Hb) as (H1 & H2 & more & H3 & H4).
      repeat split; [exact H1|exact H2|].
      exists more. split; [exact H3|by apply sublist_cons]. }
    destruct (Z.ltb_spec (t + PyStr.tokens c) token_budget) as [Hlt|Hge]; simpl.
    + destruct (IH (PyDict.set k c fs) (t + PyStr.tokens c))
        as (H1 & H2 & more & H3 & H4).
      * by apply NoDup_keys_set.
      * right. split; [apply set_nonempty|exact Hlt].
      * repeat split; [exact H1|exact H2|].
        exists ((k, c) :: more). split.
        -- rewrite H3, set_new by exact Hm. by rewrite <- app_assoc.
        -- by apply sublist_skip.
    + destruct (IH fs t Hnd Hb) as (H1 & H2 & more & H3 & H4).
      repeat split; [exact H1|exact H2|].
      exists more. split; [exact H3|by apply sublist_cons].
Qed.

Lemma tokens_nonneg c : 0 ≤ PyStr.tokens c.
Proof. unfold PyStr.tokens. lia. Qed.

Lemma tokens_of_set k c fs :
  0 ≤ tokens_of fs
  ∧ tokens_of (PyDict.set k c fs) ≤ tokens_of fs + PyStr.tokens c.
Proof.
  unfold tokens_of. induction fs as [|[k' c'] fs [IH1 IH2]]; simpl.
  - pose proof (tokens_nonneg c). lia.
  - pose proof (tokens_nonneg c). pose proof (tokens_nonneg c').
    destruct (String.eqb k' k); simpl; lia.
Qed.

(** The running total covers the tokens of the files selected. *)
Lemma merge_tokens check_new src : ∀ all_files tokens_used,
  tokens_of all_files ≤ tokens_used →
  let out := merge check_new token_budget src all_files tokens_used in
  tokens_of out.1 ≤ out.2.
Proof.
  induction src as [|[k c] src IH]; intros fs t Ht; simpl; [exact Ht|].
  destruct (_ && _); [|by apply IH].
  apply IH. destruct (tokens_of_set k c fs). lia.
Qed.

End Merge.

Lemma auto_select_tokens (E : Env) (task : string) (token_budget : Z)
    (root : option Path) (w w' : World)
    (all_files : list (string * string)) (tokens_used : Z) :
  auto_select E task token_budget root w = (Return (all_files, tokens_used), w') →
  0 ≤ tokens_of all_files ≤ tokens_used.
Proof.
  intros Hrun. split.
  { destruct all_files as [|[k c] fs]; [done|].
    destruct (tokens_of_set k c fs). unfold tokens_of in *. simpl.
    pose proof (tokens_nonneg c). lia. }
  revert Hrun. unfold auto_select. run.
  destruct (get_recent_context E 3 50 _ w) as [[rec|e] w1]; [|discriminate].
  pose proof (merge_tokens token_budget false (files rec) [] 0) as H1.
  destruct (merge false token_budget (files rec) [] 0) as [fs1 t1].
  specialize (H1 ltac:(done)). simpl in H1.
  assert (∀ fs2 t2 (w2 : World),
            tokens_of fs2 ≤ t2 →
            (if t2 <? token_budget
             then match get_hot_context E 2 50 (Some (resolve_root E root)) w2 with
                  | (Return hot, w3) =>
                      (Return (merge true token_budget (files hot) fs2 t2), w3)
                  | (Raise e, w3) => (Raise e, w3)
                  end
             else (Return (fs2, t2), w2))
            = (Return (all_files, tokens_used), w') →
            tokens_of all_files ≤ tokens_used) as Hot.
  { intros fs2 t2 w2 H2 Hstep. destruct (t2 <? token_budget).
    - destruct (get_hot_context E 2 50 _ w2) as [[hot|e] w3]; [|discriminate].
      pose proof (merge_tokens token_budget true (files hot) fs2 t2 H2) as H3.
      injection Hstep as Hm _. rewrite Hm in H3. exact H3.
    - by injection Hstep as <- <- _. }
  destruct (negb (String.eqb task EmptyString) && (t1 <? token_budget)).
  - destruct (get_semantic_context E task 3 _ w1) as [[sem|e] w2]; [|discriminate].
    pose proof (merge_tokens token_budget true (files sem) fs1 t1 H1) as H2.
    destruct (merge true token_budget (files sem) fs1 t1) as [fs2 t2].
    intros Hstep. apply (Hot fs2 t2 w2 H2).
    destruct (t2 <? token_budget); exact Hstep.
  - intros Hstep. apply (Hot fs1 t1 w1 H1).
    destruct (t1 <? token_budget); exact Hstep.
Qed.

(** C4.  Whenever [get_auto_context] returns, the files it selected are
    those kept from the recent files, followed by those added from the
    semantic results (none unless a non-empty task was given), followed by
    those added from the hot files; no path is included twice and a later
    source adds only after what is already there; and the token total it
    reports covers the tokens of the files included, is below the budget
    when a file is included, and is 0 otherwise. *)
Theorem auto_context_merge (E : Env) (task : string) (token_budget : Z)
    (root : option Path) (w w' : World)
    (all_files : list (string * string)) (tokens_used : Z) :
  auto_select E task token_budget root w = (Return (all_files, tokens_used), w') →
  let r := Some (resolve_root E root) in
  get_auto_context E task token_budget root w
    = (Return (format_context all_files tokens_used), w')
  ∧ NoDup (PyDict.keys all_files)
  ∧ (all_files ≠ [] → tokens_used < token_budget)
  ∧ (all_files = [] → tokens_used = 0)
  ∧ 0 ≤ tokens_of all_files ≤ tokens_used
  ∧ ∃ rec w1 from_recent from_semantic from_hot,
      get_recent_context E 3 50 r w = (Return rec, w1)
      ∧ all_files = from_recent ++ from_semantic ++ from_hot
      ∧ (∀ kv, kv ∈ from_recent → kv ∈ files rec)
      ∧ (from_semantic = []
         ∨ task ≠ EmptyString
           ∧ ∃ sem w2, get_semantic_context E task 3 r w1 = (Return sem, w2)
                       ∧ sublist from_semantic (files sem))
      ∧ (from_hot = []
         ∨ ∃ w2 hot w3, get_hot_context E 2 50 r w2 = (Return hot, w3)
                        ∧ sublist from_hot (files hot)).
Proof.
  intros Hrun r.
  split; [unfold get_auto_context; run; by rewrite Hrun|].
  pose proof (auto_select_tokens _ _ _ _ _ _ _ _ Hrun) as Htok.
  cut (NoDup (PyDict.keys all_files)
       ∧ (all_files ≠ [] → tokens_used < token_budget)
       ∧ (all_files = [] → tokens_used = 0)
       ∧ ∃ rec w1 from_recent from_semantic from_hot,
           get_recent_context E 3 50 r w = (Return rec, w1)
           ∧ all_files = from_recent ++ from_semantic ++ from_hot
           ∧ (∀ kv, kv ∈ from_recent → kv ∈ files rec)
           ∧ (from_semantic = []
              ∨ task ≠ EmptyString
                ∧ ∃ sem w2, get_semantic_context E task 3 r w1 = (Return sem, w2)
                            ∧ sublist from_semantic (files sem))
           ∧ (from_hot = []
              ∨ ∃ w2 hot w3, get_hot_context E 2 50 r w2 = (Return hot, w3)
                             ∧ sublist from_hot (files hot))).
  { intros (H1 & H2 & H3 & H4). repeat (split; [assumption|]). exact H4. }
  clear Htok.
  revert Hrun. unfold auto_select. fold r. run.
  destruct (get_recent_context E 3 50 r w) as [[rec|e] w1] eqn:Hrec;
    [|discriminate].
  destruct (merge false token_budget (files rec) [] 0) as [fs1 t1] eqn:Hm1.
  destruct (merge_first token_budget (files rec) [] 0) as (Hnd1 & Hb1 & Hin1);
    [apply NoDup_nil_2 | by left |].
  rewrite Hm1 in Hnd1, Hb1, Hin1. simpl in Hnd1, Hb1, Hin1.
  assert (∀ kv, kv ∈ fs1 → kv ∈ files rec) as Hin1'.
  { intros kv Hkv. destruct (Hin1 kv Hkv) as [H|H]; [|exact H].
    by apply elem_of_nil in H. }
  assert (∀ fs2 t2 (w2 : World),
            NoDup (PyDict.keys fs2) → within_budget token_budget fs2 t2 →
            (if t2 <? token_budget
             then match get_hot_context E 2 50 r w2 with
                  | (Return hot, w3) =>
                      (Return (merge true token_budget (files hot) fs2 t2), w3)
                  | (Raise e, w3) => (Raise e, w3)
                  end
             else (Return (fs2, t2), w2))
            = (Return (all_files, tokens_used), w') →
            NoDup (PyDict.keys all_files)
            ∧ (all_files ≠ [] → tokens_used < token_budget)
            ∧ (all_files = [] → tokens_used = 0)
            ∧ ∃ from_hot,
                all_files = fs2 ++ from_hot
                ∧ (from_hot = []
                   ∨ ∃ w2' hot w3, get_hot_context E 2 50 r w2' = (Return hot, w3)
                                   ∧ sublist from_hot (files hot))) as Hot.
  { intros fs2 t2 w2 Hnd2 Hb2 Hstep.
    assert (∀ fs t, within_budget token_budget fs t →
                    (fs ≠ [] → t < token_budget) ∧ (fs = [] → t = 0)) as Hsplit.
    { intros fs t [[-> ->]|[Hne Hlt]]; split; congruence. }
    destruct (t2 <? token_budget).
    - destruct (get_hot_context E 2 50 r w2) as [[hot|e] w3] eqn:Hhot;
        [|discriminate].
      destruct (merge_later token_budget (files hot) _ t2 Hnd2 Hb2)
        as (Hnd3 & Hb3 & more & Hmore & Hsub).
      injection Hstep as Hm _. rewrite Hm in Hnd3, Hb3, Hmore.
      simpl in Hnd3, Hb3, Hmore.
      split; [exact Hnd3|]. destruct (Hsplit _ _ Hb3) as [? ?].
      split; [assumption|]. split; [assumption|].
      exists more. split; [exact Hmore|].
      right. exists w2, hot, w3. by split.
    - injection Hstep as <- <- _.
      split; [exact Hnd2|]. destruct (Hsplit _ _ Hb2) as [? ?].
      split; [assumption|]. split; [assumption|].
      exists []. split; [by rewrite app_nil_r|by left]. }
  destruct (negb (String.eqb task EmptyString) && (t1 <? token_budget)) eqn:Hc.
  - destruct (get_semantic_context E task 3 r w1) as [[sem|e] w2] eqn:Hsem;
      [|discriminate].
    destruct (merge true token_budget (files sem) fs1 t1) as [fs2 t2] eqn:Hm2.
    destruct (merge_later token_budget (files sem) fs1 t1 Hnd1 Hb1)
      as (Hnd2 & Hb2 & more & Hmore & Hsub).
    rewrite Hm2 in Hnd2, Hb2, Hmore. simpl in Hnd2, Hb2, Hmore.
    intros Hstep.
    destruct (Hot fs2 t2 w2 Hnd2 Hb2) as (H1 & H2 & H3 & fh & H4 & H5);
      [destruct (t2 <? token_budget); exact Hstep|].
    split; [exact H1|]. split; [exact H2|]. split; [exact H3|].
    exists rec, w1, fs1, more, fh.
    split; [reflexivity|]. split; [by rewrite H4, Hmore, <- app_assoc|].
    split; [exact Hin1'|]. split; [|exact H5].
    right. split.
    + apply andb_true_iff in Hc as [Hc _]. intros ->. discriminate.
    + exists sem, w2. by split.
  - intros Hstep.
    destruct (Hot fs1 t1 w1 Hnd1 Hb1) as (H1 & H2 & H3 & fh & H4 & H5);
      [destruct (t1 <? token_budget); exact Hstep|].
    split; [exact H1|]. split; [exact H2|]. split; [exact H3|].
    exists rec, w1, fs1, [], fh.
    split; [reflexivity|]. split; [exact H4|].
    split; [exact Hin1'|]. split; [by left|exact H5].
Qed.

Lemma auto_context_merge_witness :
  let selected := [("/proj/a.py", Sample.a_py); ("a.py", "def f(): pass")] in
  get_auto_context Sample.env "find f" 4000 None Sample.used
    = (Return (format_context selected 12),
       (auto_select Sample.env "find f" 4000 None Sample.used).2)
  ∧ NoDup (PyDict.keys selected)
  ∧ (selected ≠ [] → 12 < 4000).
Proof.
  intros selected.
  destruct (auto_context_merge Sample.env "find f" 4000 None Sample.used
              (auto_select Sample.env "find f" 4000 None Sample.used).2
              selected 12) as (H1 & H2 & H3 & _);
    [vm_compute; reflexivity|].
  split; [exact H1|]. split; [exact H2|exact H3].
Defined.

(** ** Semantic search *)
Section Semantic.
Context (E : Env) (query : string) (limit : Z) (root : option Path).

Let r : Path := resolve_root E root.
Let cp : string := str (get_cache_path E root).
Let stamp : pyval := PStr (utcnow_isoformat E +:+ "Z").

Lemma foldl_hits results (a : acc) :
  foldl (λ (a : acc) result,
           (a.1 ++ [(path (chunk result), content (chunk result))],
            a.2 + PyStr.tokens (content (chunk result)))) a results
  = (a.1 ++ map hit_pair results, a.2 + tokens_of (map hit_pair results)).
Proof.
  revert a. induction results as [|x results IH]; intros [fs t]; simpl.
  - rewrite app_nil_r. f_equal. unfold tokens_of. simpl. lia.
  - rewrite IH. simpl. rewrite <- app_assoc. f_equal.
    unfold tokens_of, hit_pair. simpl. lia.
Qed.

Lemma journal_add_nil w : journal_add [] w = w.
Proof. destruct w. unfold journal_add. simpl. by rewrite app_nil_r. Qed.

Lemma journaled_add e evs w :
  journaled e (journal_add evs w) = journal_add (evs ++ [e]) w.
Proof. unfold journaled, journal_add. simpl. by rewrite <- app_assoc. Qed.

Lemma journaled_one e w : journaled e w = journal_add [e] w.
Proof. reflexivity. Qed.

(** The [try] block with its handler: the files found, whatever
    happens. *)
Lemma semantic_lookup_run w :
  let fs := map hit_pair (index_answer E r query limit) in
  try_except (semantic_lookup E r query limit) (mret ([], 0)) w
  = (Return (fs, tokens_of fs), journal_add (index_events E r) w).
Proof.
  unfold semantic_lookup, index_answer, index_events. run.
  destruct (import_vector_store E) as [[]|e]; simpl;
    [|by rewrite journal_add_nil].
  destruct (VectorStore_new E _) as [[]|e]; simpl;
    [|by rewrite journal_add_nil].
  destruct (VectorStore_load E _) as [[|]|e]; simpl; try reflexivity.
  rewrite (journaled_one (IndexLoad _) w), journaled_add. simpl.
  destruct (VectorStore_search E _ query limit) as [results|e]; simpl;
    [|reflexivity].
  rewrite foldl_hits. reflexivity.
Qed.

Lemma get_semantic_context_run w :
  let fs := map hit_pair (index_answer E r query limit) in
  let w1 := journal_add (index_events E r ++ [CacheLoad cp]) w in
  let c := set_timestamp stamp
             (set_last_query (PStr query) (current_cache E root w)) in
  get_semantic_context E query limit root w
  = if bool_decide (cp ∈ readonly w) then (Raise OSError, w1)
    else (Return {| files := fs; token_count := tokens_of fs;
                    source := "semantic" |},
          written (to_dict c) cp w1).
Proof.
  intros fs w1 c. unfold get_semantic_context. fold r.
  unfold mbind, M_bind, bind at 1. rewrite semantic_lookup_run.
  unfold bind at 1. rewrite load_cache_run. rewrite journaled_add.
  change (str (get_cache_path E (Some r))) with cp. fold w1.
  unfold mbind, M_bind, bind, mret, M_ret, ret.
  destruct (decide (cp ∈ readonly w)) as [Hro|Hrw].
  - rewrite bool_decide_eq_true_2 by exact Hro.
    rewrite save_cache_fails; [reflexivity|exact Hro].
  - rewrite bool_decide_eq_false_2 by exact Hrw.
    rewrite save_cache_run by exact Hrw. subst c.
    rewrite current_cache_decoded. reflexivity.
Qed.

End Semantic.



(** ** Import resolution *)
Section Dependency.
Context (w : World) (r : Path).

Lemma resolve_import_stops parts i (a : acc) :
  resolve_import w r parts i a
  = (a, match i with O => Return tt | S _ => Raise TypeError end).
Proof. destruct i; reflexivity. Qed.

Lemma resolve_imports_adds_nothing imports (a : acc) :
  (resolve_imports w r imports a).1 = a.
Proof.
  induction imports as [|imp imports IH]; simpl; [reflexivity|].
  destruct (import_parts imp) as [parts|e]; [|reflexivity].
  rewrite resolve_import_stops.
  destruct (length parts); [exact IH|reflexivity].
Qed.

(** An import that names a module reaches the path construction, which
    raises. *)
Lemma resolve_imports_raises imp imports parts (a : acc) :
  import_parts imp = Return parts →
  resolve_imports w r (imp :: imports) a = (a, Raise TypeError).
Proof.
  intros Hp. simpl. rewrite Hp, resolve_import_stops.
  assert (parts ≠ []) as Hne.
  { unfold import_parts in Hp.
    destruct (PyStr.split _) as [|word ?]; [discriminate|].
    injection Hp as <-. destruct word as [|c word]; simpl; [discriminate|].
    destruct (Ascii.eqb c "."); [discriminate|].
    destruct (PyStr.split_on "." word); discriminate. }
  destruct parts; [congruence|reflexivity].
Qed.

End Dependency.

Lemma get_dependency_context_is_empty_run (E : Env) (file_path : Path)
    (root : option Path) (w : World) :
  get_dependency_context E file_path root w
  = (Return {| files := []; token_count := 0; source := "dependency" |}, w).
Proof.
  unfold get_dependency_context.
  destruct (import_treesitter_utils E) as [[]|e]; [|reflexivity].
  destruct (parse_file E file_path) as [imports|e]; [|reflexivity].
  by rewrite resolve_imports_adds_nothing.
Qed.

(** C5.  [get_dependency_context] returns a result with no files and a
    token count of 0, whatever the file and the root, and never raises:
    the candidate path [(root / ...) + '.py'] raises [TypeError] for every
    import that names a module, the handler swallows it, and nothing is
    ever appended. *)
Theorem get_dependency_context_is_empty (E : Env) (file_path : Path)
    (root : option Path) (w : World) :
  get_dependency_context E file_path root w
  = (Return {| files := []; token_count := 0; source := "dependency" |}, w)
  ∧ (∀ (r : Path) (joined : string), add_str (r // joined) ".py" = Raise TypeError)
  ∧ (∀ (r : Path) imp imports parts (a : acc),
       import_parts imp = Return parts →
       resolve_imports w r (imp :: imports) a = (a, Raise TypeError)).
Proof.
  split; [apply get_dependency_context_is_empty_run|].
  split; [reflexivity|intros; by eapply resolve_imports_raises].
Qed.

(** ** The lifecycle of the cache *)
Section Lifecycle.
Context (E : Env) (root : option Path).

Let cp : string := str (get_cache_path E root).

Lemma get_recent_context_world w limit max_lines :
  (get_recent_context E limit max_lines root w).2 = journaled (CacheLoad cp) w.
Proof.
  unfold get_recent_context. run. rewrite load_cache_run. fold cp.
  destruct (recent_slice limit _) as [entries|e]; simpl; [|reflexivity].
  unfold collect. by destruct (visit_all _ _ _ _ _) as [[fs t]|e].
Qed.

Lemma get_hot_context_world w limit max_lines :
  (get_hot_context E limit max_lines root w).2 = journaled (CacheLoad cp) w.
Proof.
  unfold get_hot_context. run. rewrite load_cache_run. fold cp.
  destruct (hot_items _) as [items|e]; simpl; [|reflexivity].
  destruct (sorted_by_count items) as [sorted|e]; simpl; [|reflexivity].
  unfold collect. by destruct (visit_all _ _ _ _ _) as [[fs t]|e].
Qed.








End Lifecycle.



(** ** Ranking of search results *)
Section Ranking.

Lemma ltb_Lt s1 s2 : String.ltb s1 s2 = true ↔ String.compare s1 s2 = Lt.
Proof. unfold String.ltb. destruct (String.compare s1 s2); split; congruence. Qed.

Lemma ltb_leb s1 s2 : String.ltb s1 s2 = true → String.leb s1 s2 = true.
Proof. unfold String.ltb, String.leb. by destruct (String.compare s1 s2). Qed.

Lemma compare_refl s : String.compare s s = Eq.
Proof.
  induction s as [|a s IH]; simpl; [reflexivity|].
  unfold Ascii.compare. by rewrite N.compare_refl.
Qed.

Lemma ltb_irrefl s : String.ltb s s = false.
Proof. unfold String.ltb. by rewrite compare_refl. Qed.

Lemma ltb_trans s1 s2 s3 :
  String.ltb s1 s2 = true → String.ltb s2 s3 = true → String.ltb s1 s3 = true.
Proof.
  intros H12 H23.
  assert (String.le s1 s3) as H13.
  { trans s2; apply Is_true_true; by apply ltb_leb. }
  apply Is_true_true in H13. unfold String.leb in H13. apply ltb_Lt.
  destruct (String.compare s1 s3) eqn:Hc; [|reflexivity|discriminate].
  apply String.compare_eq_iff in Hc as ->.
  assert (s2 = s3) as ->.
  { apply String.leb_antisym; by apply ltb_leb. }
  by rewrite ltb_irrefl in H12.
Qed.

Lemma ltb_false s1 s2 :
  String.ltb s1 s2 = false → s1 = s2 ∨ String.ltb s2 s1 = true.
Proof.
  unfold String.ltb. rewrite (String.compare_antisym s2 s1).
  destruct (String.compare s1 s2) eqn:Hc; simpl; intros H;
    [left; by apply String.compare_eq_iff|discriminate|by right].
Qed.

Import IndexSpec.

Lemma Qltb_lt a b : Qltb a b = true ↔ (a < b)%Q.
Proof.
  unfold Qltb. rewrite negb_true_iff.
  destruct (Qle_bool b a) eqn:Hle.
  - apply Qle_bool_iff in Hle. split; [discriminate|lra].
  - split; [intros _|reflexivity].
    destruct (Qlt_le_dec a b) as [?|Hba]; [assumption|].
    apply Qle_bool_iff in Hba. congruence.
Qed.

Lemma key_ltb_le a b : key_ltb a b = true → key_le a b.
Proof.
  unfold key_ltb, key_le. intros [H|[H1 H2]%andb_true_iff]%orb_true_iff.
  - by left.
  - right. apply String.eqb_eq in H1. apply Z.ltb_lt in H2. split; [done|lia].
Qed.

Lemma key_ltb_total a b : key_ltb a b = false → key_le b a.
Proof.
  unfold key_ltb, key_le. intros [H1 H2]%orb_false_iff.
  destruct (ltb_false _ _ H1) as [Heq|Hlt]; [|by left].
  right. split; [done|].
  rewrite Heq, String.eqb_refl in H2. simpl in H2.
  apply Z.ltb_ge in H2. exact H2.
Qed.

Lemma key_le_trans a b c : key_le a b → key_le b c → key_le a c.
Proof.
  unfold key_le. intros [H1|[H1 H1']] [H2|[H2 H2']].
  - left. by eapply ltb_trans.
  - left. by rewrite <- H2.
  - left. by rewrite H1.
  - right. split; [congruence|lia].
Qed.

Lemma ranks_before_le y x : ranks_before y x = true → rank_le y x.
Proof.
  unfold ranks_before, rank_le.
  intros [H|[H1 H2]%andb_true_iff]%orb_true_iff.
  - left. by apply Qltb_lt.
  - right. apply Qeq_bool_iff in H1. split; [lra|by apply key_ltb_le].
Qed.

Lemma ranks_before_total y x : ranks_before y x = false → rank_le x y.
Proof.
  unfold ranks_before, rank_le. intros [H1 H2]%orb_false_iff.
  assert (¬ (score x < score y)%Q) as Hge.
  { intros Hlt%Qltb_lt. congruence. }
  destruct (Qlt_le_dec (score y) (score x)) as [Hlt|Hle]; [by left|].
  right. assert (score x == score y)%Q as Heq by lra.
  split; [exact Heq|]. apply key_ltb_total.
  apply Qeq_bool_iff in Heq. rewrite Heq in H2. exact H2.
Qed.

Lemma rank_le_trans a b c : rank_le a b → rank_le b c → rank_le a c.
Proof.
  unfold rank_le. intros [H1|[H1 H1']] [H2|[H2 H2']].
  - left. lra.
  - left. lra.
  - left. lra.
  - right. split; [lra|by eapply key_le_trans].
Qed.

(** The ranking order means: scores descend, and equal scores are in
    ascending order of [(path, start_line)]. *)
Lemma rank_le_meaning a b :
  rank_le a b →
  (score b <= score a)%Q ∧ ((score a == score b)%Q → key_le a b).
Proof.
  intros [H|[H1 H2]]; split.
  - lra.
  - intros Heq. lra.
  - lra.
  - done.
Qed.

Lemma insert_by_sorted x l :
  StronglySorted rank_le l →
  StronglySorted rank_le (PyList.insert_by ranks_before x l).
Proof.
  induction 1 as [|y l Hs IH Hall]; simpl.
  - repeat constructor.
  - destruct (ranks_before y x) eqn:Hb.
    + constructor; [exact IH|].
      assert (∀ l', Forall (rank_le y) l' →
                    Forall (rank_le y) (PyList.insert_by ranks_before x l')) as Hins.
      { induction 1 as [|z l' Hz Hl' IH']; simpl.
        - constructor; [by apply ranks_before_le|constructor].
        - destruct (ranks_before z x); constructor; try assumption.
          + by apply ranks_before_le.
          + by constructor. }
      by apply Hins.
    + apply ranks_before_total in Hb.
      constructor; [by constructor|].
      constructor; [exact Hb|].
      eapply Forall_impl; [exact Hall|].
      intros z Hz. by eapply rank_le_trans.
Qed.

Lemma sort_by_sorted l :
  StronglySorted rank_le (PyList.sort_by ranks_before l).
Proof.
  induction l as [|x l IH]; simpl; [constructor|by apply insert_by_sorted].
Qed.

Lemma length_insert_by {A} (before : A → A → bool) x l :
  length (PyList.insert_by before x l) = S (length l).
Proof.
  induction l as [|y l IH]; simpl; [reflexivity|].
  destruct (before y x); simpl; [by rewrite IH|reflexivity].
Qed.

Lemma length_sort_by {A} (before : A → A → bool) l :
  length (PyList.sort_by before l) = length l.
Proof.
  induction l as [|x l IH]; simpl; [reflexivity|].
  by rewrite length_insert_by, IH.
Qed.

Lemma insert_by_perm {A} (before : A → A → bool) x l :
  PyList.insert_by before x l ≡ₚ x :: l.
Proof.
  induction l as [|y l IH]; simpl; [reflexivity|].
  destruct (before y x); [|reflexivity].
  rewrite IH. apply Permutation_swap.
Qed.

Lemma sort_by_perm {A} (before : A → A → bool) l :
  PyList.sort_by before l ≡ₚ l.
Proof.
  induction l as [|x l IH]; simpl; [reflexivity|].
  by rewrite insert_by_perm, IH.
Qed.

Lemma search_from_index embed similarity index query k x :
  x ∈ search embed similarity index query k →
  ∃ e, e ∈ index
       ∧ x = {| chunk := entry_chunk e;
                score := similarity (embed query) (embedding e) |}.
Proof.
  unfold search. destruct (String.eqb query EmptyString).
  - intros H. by apply elem_of_nil in H.
  - intros H. apply subseteq_take in H.
    rewrite sort_by_perm in H.
    apply list_elem_of_fmap in H as (e & -> & He). by exists e.
Qed.

Lemma take_sorted {A} (R : A → A → Prop) n l :
  StronglySorted R l → StronglySorted R (take n l).
Proof.
  intros Hs. revert n. induction Hs as [|x l Hs IH Hall]; intros [|n]; simpl;
    try constructor; [apply IH|].
  apply Forall_take. exact Hall.
Qed.

Lemma search_ranked embed similarity index query k :
  StronglySorted rank_le (search embed similarity index query k)
  ∧ length (search embed similarity index query k)
    = if String.eqb query EmptyString then 0%nat
      else Nat.min k (length index).
Proof.
  unfold search. destruct (String.eqb query EmptyString).
  - split; [constructor|reflexivity].
  - split; [apply take_sorted, sort_by_sorted|].
    by rewrite length_take, length_sort_by, length_map.
Qed.

End Ranking.

(** C2.  The specified [search] returns at most [k] results (the first
    [k] of the index when it has as many and the query is not empty), in
    ranking order, each being an entry of the index with its similarity to
    the query: every result scores at least as high as each result after it,
    and of two results with equal scores the earlier one is not after the
    other in the order of [(path, start_line)].  With that store,
    [get_semantic_context(query, limit)] returns the (path, content) pairs
    of the first [limit] results, in that order, so at most [limit]
    files. *)
Theorem search_results_are_ranked (embed : string → list Q)
    (similarity : list Q → list Q → Q) (index : list IndexSpec.IndexEntry)
    (query : string) (k : nat) (E : Env) (limit : Z) (root : option Path)
    (w : World) :
  let results := IndexSpec.search embed similarity index query k in
  let found := IndexSpec.search embed similarity index query (Z.to_nat limit) in
  let E' := IndexSpec.with_store E embed similarity index in
  (length results ≤ k)%nat
  ∧ length results = (if String.eqb query EmptyString then 0%nat
                      else Nat.min k (length index))
  ∧ StronglySorted IndexSpec.rank_le results
  ∧ (∀ x, x ∈ results →
          ∃ e, e ∈ index
               ∧ x = {| chunk := IndexSpec.entry_chunk e;
                        score := similarity (embed query)
                                            (IndexSpec.embedding e) |})
  ∧ (∀ a b, IndexSpec.rank_le a b →
            (score b <= score a)%Q
            ∧ ((score a == score b)%Q → IndexSpec.key_le a b))
  ∧ (get_semantic_context E' query limit root w).1
    = (if bool_decide (str (get_cache_path E root) ∈ readonly w)
       then Raise OSError
       else Return {| files := map hit_pair found;
                      token_count := tokens_of (map hit_pair found);
                      source := "semantic" |})
  ∧ (length (map hit_pair found) ≤ Z.to_nat limit)%nat.
Proof.
  intros results found E'.
  destruct (search_ranked embed similarity index query k) as [Hs Hl].
  split; [fold results in Hl; rewrite Hl; destruct (String.eqb _ _); lia|].
  split; [exact Hl|]. split; [exact Hs|].
  split; [intros x Hx; by eapply search_from_index|].
  split; [apply rank_le_meaning|].
  split.
  - rewrite get_semantic_context_run.
    change (str (get_cache_path E' root)) with (str (get_cache_path E root)).
    by destruct (bool_decide _).
  - rewrite length_map.
    destruct (search_ranked embed similarity index query (Z.to_nat limit))
      as [_ Hl']. fold found in Hl'. rewrite Hl'.
    destruct (String.eqb _ _); lia.
Qed.

(** ** Reindexing *)
Section Reindex.
Import IndexSpec.
Context (C : Collaborators)
        (call : nat → list string → option (list (list Q))).

Lemma reindex_file_counts st p :
  let st' := reindex_file C call st p in
  removed (summary st') = removed (summary st)
  ∧ match read_source C p with
    | None => visited (summary st') = visited (summary st)
              ∧ failed (summary st') = S (failed (summary st))
    | Some _ => visited (summary st') = S (visited (summary st))
                ∧ (failed (summary st) ≤ failed (summary st'))%nat
    end.
Proof.
  unfold reindex_file, visited.
  destruct (read_source C p) as [text|]; simpl; [|lia].
  destruct (negb _ && forallb _ _); simpl; [lia|].
  destruct (Nat.eqb _ 0); simpl; lia.
Qed.

(** A readable file is either left as it is, or its entries are replaced
    by those of its chunks that got an embedding, the others being counted
    as failed. *)
Lemma reindex_file_chunks st p text :
  read_source C p = Some text →
  let st' := reindex_file C call st p in
  let chunks := chunker C p text in
  (entries st' = entries st
   ∧ failed (summary st') = failed (summary st))
  ∨ (∃ fresh,
       entries st'
       = List.filter (λ e, negb (of_path p e)) (entries st) ++ fresh
       ∧ map entry_chunk fresh `sublist_of` chunks
       ∧ failed (summary st')
         = (failed (summary st) + (length chunks - length fresh))%nat).
Proof.
  intros Hp. unfold reindex_file. rewrite Hp.
  destruct (negb _ && forallb _ _); simpl; [by left|].
  right. eexists. split; [reflexivity|]. split.
  - match goal with
    | |- context [PyDict.get _ ?c] => generalize c
    end.
    intros cache'. induction (chunker C p text) as [|c chunks IH]; simpl;
      [constructor|].
    destruct (PyDict.get (content_hash c) cache'); simpl;
      [by apply sublist_skip|by apply sublist_cons].
  - by destruct (Nat.eqb _ 0).
Qed.

Lemma foldl_reindex_counts listing : ∀ st,
  let st' := foldl (reindex_file C call) st listing in
  removed (summary st') = removed (summary st)
  ∧ (visited (summary st') + unreadable C listing
     = visited (summary st) + length listing)%nat
  ∧ (failed (summary st) + unreadable C listing ≤ failed (summary st'))%nat.
Proof.
  unfold unreadable.
  induction listing as [|p listing IH]; intros st; simpl; [lia|].
  destruct (IH (reindex_file C call st p)) as (H1 & H2 & H3).
  destruct (reindex_file_counts st p) as [H4 H5].
  destruct (read_source C p) as [text|] eqn:Hp; simpl in *; lia.
Qed.

End Reindex.

(** C8.  The specified [reindex] returns a summary of the five counts
    whenever an Embedding Provider is configured, whatever files cannot be
    read and whatever batches the provider fails: every enumerated file is
    counted as added, updated or unchanged, or else is unreadable, and
    each unreadable file is counted as failed; a file whose chunks are
    embedded anew gets an entry for each chunk that has an embedding, and
    the chunks left without one are counted as failed.  It aborts only
    when no provider is configured. *)
Theorem reindex_reports_local_failures (C : IndexSpec.Collaborators)
    (project_root : string) (index : list IndexSpec.IndexEntry)
    (cache0 : list (string * list Q)) :
  let listing := IndexSpec.enumerate C project_root in
  match IndexSpec.provider C with
  | Some _ =>
      ∃ s index' cache',
        IndexSpec.reindex C project_root index cache0 = inr (s, (index', cache'))
        ∧ (IndexSpec.added s + IndexSpec.updated s + IndexSpec.unchanged s
           + IndexSpec.unreadable C listing = length listing)%nat
        ∧ (IndexSpec.unreadable C listing ≤ IndexSpec.failed s)%nat
        ∧ (∀ call st p text,
             IndexSpec.read_source C p = Some text →
             let st' := IndexSpec.reindex_file C call st p in
             let chunks := IndexSpec.chunker C p text in
             (IndexSpec.entries st' = IndexSpec.entries st
              ∧ IndexSpec.failed (IndexSpec.summary st')
                = IndexSpec.failed (IndexSpec.summary st))
             ∨ (∃ fresh,
                  IndexSpec.entries st'
                  = List.filter (λ e, negb (IndexSpec.of_path p e))
                                (IndexSpec.entries st) ++ fresh
                  ∧ map IndexSpec.entry_chunk fresh `sublist_of` chunks
                  ∧ IndexSpec.failed (IndexSpec.summary st')
                    = (IndexSpec.failed (IndexSpec.summary st)
                       + (length chunks - length fresh))%nat))
  | None =>
      IndexSpec.reindex C project_root index cache0
      = inl IndexSpec.NoEmbeddingProvider
  end.
Proof.
  intros listing. unfold IndexSpec.reindex. fold listing.
  destruct (IndexSpec.provider C) as [call|]; [|reflexivity].
  do 3 eexists. split; [reflexivity|].
  cut (∀ A B D : Prop, A ∧ B → D → A ∧ B ∧ D); [|tauto].
  intros Hcut. apply Hcut; [|intros; by apply reindex_file_chunks].
  destruct (foldl_reindex_counts C call listing
              {| IndexSpec.entries := index; IndexSpec.cache := cache0;
                 IndexSpec.summary := IndexSpec.no_counts |}) as (H1 & H2 & H3).
  unfold IndexSpec.visited in H2. simpl in *. lia.
Qed.

(** * Further properties of the module *)

(** ** What the saving operations leave in the cache *)
Section Effects.
Context (E : Env) (root : option Path).

Let cp : string := str (get_cache_path E root).
Let stamp : pyval := PStr (utcnow_isoformat E +:+ "Z").


Lemma current_cache_written c w :
  current_cache E root (written (to_dict c) cp w) = c.
Proof. by rewrite current_cache_decoded, decoded_written, from_to_dict. Qed.


End Effects.





(** ** Tracking, again *)
Section TrackMore.





End TrackMore.









(** X7.  When the cache file gives nothing to start from (it is absent,
    unreadable or not a cache), [track_file_access(path)] starts a new
    cache: it writes one whose only recent file is the path, counted once,
    with empty [last_query] and [last_task]. *)
Theorem track_file_access_starts_cache (E : Env) (root : option Path)
    (w : World) (p : Path) :
  str (get_cache_path E root) ∉ readonly w →
  current_cache E root w = ContextCache_new →
  ∃ w',
    track_file_access E p root w = (Return tt, w')
    ∧ current_cache E root w'
      = {| recent_files := str_list [str p];
           hot_files := count_dict [(str p, 1)];
           last_query := PStr EmptyString;
           last_task := PStr EmptyString;
           timestamp := PStr (utcnow_isoformat E +:+ "Z") |}.
Proof.
  intros Hw Hnew.
  pose proof (track_file_access_run E root w p [] [] Hw) as Hrun.
  rewrite Hnew in Hrun. specialize (Hrun eq_refl eq_refl).
  cbv zeta in Hrun. eexists. split; [exact Hrun|].
  by rewrite current_cache_written.
Qed.

Lemma track_file_access_starts_cache_witness :
  ∃ w',
    track_file_access Sample.env (of_str "a.py") None Sample.fresh
    = (Return tt, w')
    ∧ current_cache Sample.env None w'
      = {| recent_files := str_list ["a.py"];
           hot_files := count_dict [("a.py", 1)];
           last_query := PStr EmptyString;
           last_task := PStr EmptyString;
           timestamp := PStr "2025-01-01T00:00:00Z" |}.
Proof.
  apply (track_file_access_starts_cache Sample.env None Sample.fresh
           (of_str "a.py")).
  - apply (bool_decide_unpack _). vm_compute. exact I.
  - vm_compute. reflexivity.
Defined.

(** ** Excerpts *)
Section Excerpts.










End Excerpts.



(** ** The order of the hot files *)
Section HotOrder.






End HotOrder.



(** ** More on the merged context *)
Section AutoMore.
Context (E : Env) (root : option Path).

Let r : option Path := Some (resolve_root E root).
Let cp : string := str (get_cache_path E root).

Lemma merge_no_budget check_new token_budget src :
  token_budget ≤ 0 → merge check_new token_budget src [] 0 = ([], 0).
Proof.
  intros Hb. induction src as [|[k c] src IH]; [reflexivity|].
  cbn [merge]. pose proof (tokens_nonneg c).
  destruct (Z.ltb_spec (0 + PyStr.tokens c) token_budget); [lia|].
  by rewrite andb_false_r.
Qed.

Lemma elem_of_keys_set {V} k' k (v : V) d :
  k' ∈ PyDict.keys (PyDict.set k v d) ↔ k' = k ∨ k' ∈ PyDict.keys d.
Proof.
  rewrite keys_set. destruct (PyDict.mem k d) eqn:Hm.
  - split; [by right|]. intros [->|H]; [|exact H].
    apply dec_stable. intros Hn. apply mem_false_keys in Hn. congruence.
  - rewrite elem_of_app, list_elem_of_singleton. tauto.
Qed.

(** With room for every file of a source, none is passed over. *)
Lemma merge_ample check_new token_budget src : ∀ all_files tokens_used,
  tokens_used + tokens_of src < token_budget →
  let out := merge check_new token_budget src all_files tokens_used in
  (∀ k, k ∈ PyDict.keys out.1
        ↔ k ∈ PyDict.keys all_files ∨ k ∈ PyDict.keys src)
  ∧ tokens_used ≤ out.2 ≤ tokens_used + tokens_of src.
Proof.
  induction src as [|[k c] src IH]; intros fs t Hb.
  - cbn. split; [|unfold tokens_of; simpl; lia].
    intros k. rewrite elem_of_nil. tauto.
  - assert (tokens_of ((k, c) :: src) = PyStr.tokens c + tokens_of src) as Hsum
      by reflexivity.
    rewrite Hsum in *. pose proof (tokens_nonneg c).
    assert (0 ≤ tokens_of src) as Hsrc.
    { destruct src as [|[k0 c0] src0]; [done|].
      by destruct (tokens_of_set k0 c0 ((k0, c0) :: src0)). }
    cbn [merge].
    assert (∀ k', k' ∈ PyDict.keys ((k, c) :: src)
                  ↔ k' = k ∨ k' ∈ PyDict.keys src) as Hk.
    { intros k'. unfold PyDict.keys. cbn [map fst]. apply elem_of_cons. }
    destruct (negb check_new || negb (PyDict.mem k fs)) eqn:Hg; cbn [andb].
    + destruct (Z.ltb_spec (t + PyStr.tokens c) token_budget) as [_|?]; [|lia].
      destruct (IH (PyDict.set k c fs) (t + PyStr.tokens c)) as [H1 H2]; [lia|].
      split; [|lia]. intros k'. rewrite H1, elem_of_keys_set, Hk. tauto.
    + destruct (IH fs t) as [H1 H2]; [lia|].
      split; [|lia]. intros k'. rewrite H1, Hk.
      apply orb_false_iff in Hg as [_ Hm]. apply negb_false_iff in Hm.
      assert (k ∈ PyDict.keys fs) as Hin.
      { apply dec_stable. intros Hn. apply mem_false_keys in Hn. congruence. }
      split; [tauto|]. intros [?|[->|?]]; tauto.
Qed.

End AutoMore.

Lemma auto_context_empty_task_world (E : Env)
    (token_budget : Z) (root : option Path) (w : World) :
  let out := get_auto_context E EmptyString token_budget root w in
  nodes out.2 = nodes w
  ∧ readonly out.2 = readonly w
  ∧ ∃ evs, journal out.2 = journal w ++ evs
           ∧ Forall (λ e, e = CacheLoad (str (get_cache_path E root))) evs.
Proof.
  unfold get_auto_context, auto_select. run.
  pose proof (get_recent_context_world E (Some (resolve_root E root)) w 3 50)
    as Hw1.
  destruct (get_recent_context E 3 50 _ w) as [[rec|e] w1]; simpl in Hw1;
    subst w1; cbn [fst snd].
  2:{ split; [reflexivity|]. split; [reflexivity|].
      eexists. split; [reflexivity|]. by repeat constructor. }
  destruct (merge false token_budget (files rec) [] 0) as [fs1 t1].
  destruct (t1 <? token_budget).
  - pose proof (get_hot_context_world E (Some (resolve_root E root))
                  (journaled (CacheLoad (str (get_cache_path E root))) w) 2 50)
      as Hw2.
    change (str (get_cache_path E (Some (resolve_root E root))))
      with (str (get_cache_path E root)) in *.
    destruct (get_hot_context E 2 50 _ _) as [[hot|e] w2]; simpl in Hw2;
      subst w2; cbn [fst snd].
    + destruct (merge true token_budget (files hot) fs1 t1) as [fs2 t2].
      cbn [fst snd nodes readonly journal journaled].
      split; [reflexivity|]. split; [reflexivity|].
      eexists. split; [by rewrite <- app_assoc|]. by repeat constructor.
    + cbn [fst snd nodes readonly journal journaled].
      split; [reflexivity|]. split; [reflexivity|].
      eexists. split; [by rewrite <- app_assoc|]. by repeat constructor.
  - cbn [fst snd nodes readonly journal journaled].
    split; [reflexivity|]. split; [reflexivity|].
    eexists. split; [reflexivity|]. by repeat constructor.
Qed.

(** X10.  Without a task, [get_auto_context] only reads: whatever the
    budget and the state of the cache, it changes no file, does not go to
    the search index, and its only accesses to persisted state are loads
    of the cache. *)
Theorem get_auto_context_without_task_only_reads (E : Env)
    (token_budget : Z) (root : option Path) (w : World) :
  let out := get_auto_context E EmptyString token_budget root w in
  nodes out.2 = nodes w
  ∧ readonly out.2 = readonly w
  ∧ ∃ evs, journal out.2 = journal w ++ evs
           ∧ Forall (λ e, e = CacheLoad (str (get_cache_path E root))) evs.
Proof. apply auto_context_empty_task_world. Qed.

(** X11.  With a budget of zero or less, [get_auto_context] selects
    nothing: it loads the cache once for the recent files, consults
    neither the search index nor the hot files, and, if the recent files
    could be read from the cache, returns the bare header reporting 0
    files and 0 tokens. *)
Theorem get_auto_context_without_budget (E : Env) (task : string)
    (token_budget : Z) (root : option Path) (w : World) :
  token_budget ≤ 0 →
  let out := get_auto_context E task token_budget root w in
  let recent := get_recent_context E 3 50 (Some (resolve_root E root)) w in
  out.2 = journaled (CacheLoad (str (get_cache_path E root))) w
  ∧ (returns recent.1 →
     out.1 = Return ("# Auto-Loaded Context" +:+ newline
                     +:+ "# Files: 0 | Tokens: ~0" +:+ newline))
  ∧ (∀ e, recent.1 = Raise e → out.1 = Raise e).
Proof.
  intros Hb. unfold get_auto_context, auto_select. run.
  pose proof (get_recent_context_world E (Some (resolve_root E root)) w 3 50)
    as Hw1.
  destruct (get_recent_context E 3 50 _ w) as [[rec|e] w1]; simpl in Hw1;
    subst w1; cbn [fst snd].
  - rewrite merge_no_budget by exact Hb.
    assert ((0 <? token_budget) = false) as Hlt by (apply Z.ltb_ge; lia).
    rewrite Hlt, andb_false_r.
    cbn -[get_hot_context merge format_context Z.ltb]. rewrite Hlt.
    cbn [fst snd]. split; [reflexivity|]. split; [|discriminate].
    intros _. reflexivity.
  - split; [reflexivity|]. split; [intros [a Ha]; discriminate|].
    intros e' He'. by injection He' as ->.
Qed.

Lemma get_auto_context_without_budget_witness :
  let out := get_auto_context Sample.env "find f" 0 None Sample.used in
  let recent := get_recent_context Sample.env 3 50 (Some (of_str "/proj"))
                  Sample.used in
  out.2 = journaled (CacheLoad Sample.cache_file) Sample.used
  ∧ (returns recent.1 →
     out.1 = Return ("# Auto-Loaded Context" +:+ newline
                     +:+ "# Files: 0 | Tokens: ~0" +:+ newline))
  ∧ (∀ e, recent.1 = Raise e → out.1 = Raise e).
Proof.
  apply (get_auto_context_without_budget Sample.env "find f" 0 None Sample.used).
  lia.
Defined.

(** X12.  When the files of the three sources fit in the budget together,
    [get_auto_context] leaves none out: every path that the recent files,
    the semantic results or the hot files offer is among the files
    selected, and no other path is. *)
Theorem get_auto_context_takes_all_that_fits (E : Env) (task : string)
    (token_budget : Z) (root : option Path) (w w1 w2 w3 : World)
    (rec sem hot : ContextResult) :
  let r := Some (resolve_root E root) in
  task ≠ EmptyString →
  get_recent_context E 3 50 r w = (Return rec, w1) →
  get_semantic_context E task 3 r w1 = (Return sem, w2) →
  get_hot_context E 2 50 r w2 = (Return hot, w3) →
  tokens_of (files rec) + tokens_of (files sem) + tokens_of (files hot)
    < token_budget →
  ∃ all_files tokens_used,
    auto_select E task token_budget root w
    = (Return (all_files, tokens_used), w3)
    ∧ ∀ p, p ∈ PyDict.keys all_files
           ↔ p ∈ PyDict.keys (files rec) ∨ p ∈ PyDict.keys (files sem)
             ∨ p ∈ PyDict.keys (files hot).
Proof.
  intros r Htask Hrec Hsem Hhot Hfit.
  assert (∀ fs : list (string * string), 0 ≤ tokens_of fs) as Hpos.
  { intros [|[k c] fs]; [done|].
    by destruct (tokens_of_set k c ((k, c) :: fs)). }
  pose proof (Hpos (files rec)). pose proof (Hpos (files sem)).
  pose proof (Hpos (files hot)).
  unfold auto_select. fold r. run. rewrite Hrec.
  destruct (merge_ample false token_budget (files rec) [] 0) as [K1 T1]; [lia|].
  destruct (merge false token_budget (files rec) [] 0) as [fs1 t1].
  cbn [fst snd] in K1, T1.
  assert (String.eqb task EmptyString = false) as -> by by apply String.eqb_neq.
  destruct (Z.ltb_spec t1 token_budget) as [_|?]; [|lia]. cbn [negb andb].
  rewrite Hsem.
  destruct (merge_ample true token_budget (files sem) fs1 t1) as [K2 T2]; [lia|].
  destruct (merge true token_budget (files sem) fs1 t1) as [fs2 t2].
  cbn [fst snd] in K2, T2.
  destruct (Z.ltb_spec t2 token_budget) as [_|?]; [|lia].
  rewrite Hhot.
  destruct (merge_ample true token_budget (files hot) fs2 t2) as [K3 T3]; [lia|].
  destruct (merge true token_budget (files hot) fs2 t2) as [fs3 t3].
  cbn [fst snd] in K3, T3.
  exists fs3, t3. split; [reflexivity|].
  intros p. rewrite K3, K2, K1.
  change (PyDict.keys []) with (@nil string). rewrite elem_of_nil. tauto.
Qed.

Lemma get_auto_context_takes_all_that_fits_witness :
  ∃ all_files tokens_used,
    auto_select Sample.env "find f" 4000 None Sample.used
    = (Return (all_files, tokens_used),
       (auto_select Sample.env "find f" 4000 None Sample.used).2)
    ∧ ∀ p, p ∈ PyDict.keys all_files
           ↔ p ∈ ["/proj/a.py"] ∨ p ∈ ["a.py"] ∨ p ∈ ["/proj/a.py"].
Proof.
  pose (r := Some (of_str "/proj")).
  pose (run1 := get_recent_context Sample.env 3 50 r Sample.used).
  pose (run2 := get_semantic_context Sample.env "find f" 3 r run1.2).
  pose (run3 := get_hot_context Sample.env 2 50 r run2.2).
  apply (get_auto_context_takes_all_that_fits Sample.env "find f" 4000 None
           Sample.used run1.2 run2.2 run3.2
           {| files := [("/proj/a.py", Sample.a_py)]; token_count := 9;
              source := "recent" |}
           {| files := [("a.py", "def f(): pass")]; token_count := 3;
              source := "semantic" |}
           {| files := [("/proj/a.py", Sample.a_py)]; token_count := 9;
              source := "hot" |}).
  - discriminate.
  - vm_compute. reflexivity.
  - vm_compute. reflexivity.
  - vm_compute. reflexivity.
  - vm_compute. reflexivity.
Defined.

(** ** The tools runner *)
Section Runner.
Context (H : Mcp.Host).

Ltac cli := unfold mbind, mret, CLI_bind, CLI_ret, print, print_all,
              get_argv, set_argv, Mcp.show_help; cbn [fst snd].

Lemma truthy_or_zero v :
  let v' := if Mcp.truthy v then v else PInt 0 in
  Mcp.truthy v' = true ∨ v' = PInt 0.
Proof. simpl. destruct (Mcp.truthy v) eqn:Hv; [by left|by right]. Qed.

(** What [main] does with a command that names a module. *)
Lemma main_known p script command args module_name :
  argv p = script :: command :: args →
  existsb (String.eqb command) ["help"; "-h"; "--help"] = false →
  PyDict.get command Mcp.COMMANDS = Some module_name →
  Mcp.main H p
  = match Mcp.run_tool H module_name args p with
    | (Return v, p') => (Return v, p')
    | (Raise e, p') =>
        (Return (PInt 1),
         {| argv := argv p';
            stdout := stdout p'
                      ++ [Failure (match e with
                                   | ImportError => "[FAIL] Could not import "
                                                    +:+ module_name +:+ ": "
                                   | _ => "[FAIL] Error running "
                                          +:+ command +:+ ": "
                                   end) e];
            world := world p' |})
    end.
Proof.
  intros Ha Hh Hc. unfold Mcp.main. rewrite Ha, Hh, Hc.
  destruct (Mcp.run_tool H module_name args p) as [[v|e] p']; [reflexivity|].
  by destruct e.
Qed.

Lemma run_tool_cases module_name args p :
  match H ("scripts." +:+ module_name) with
  | Raise e => Mcp.run_tool H module_name args p = (Raise e, p)
  | Return tool =>
      let p1 := {| argv := ("scripts/" +:+ module_name +:+ ".py") :: args;
                   stdout := stdout p; world := world p |} in
      match Mcp.tool_main tool with
      | None =>
          Mcp.run_tool H module_name args p
          = (Return (PInt 1),
             {| argv := argv p1;
                stdout := stdout p
                          ++ [Text ("[FAIL] Module " +:+ module_name
                                    +:+ " has no main function")];
                world := world p |})
      | Some tool_main =>
          Mcp.run_tool H module_name args p
          = match tool_main p1 with
            | (Return v, p') =>
                (Return (if Mcp.truthy v then v else PInt 0), p')
            | (Raise e, p') => (Raise e, p')
            end
      end
  end.
Proof.
  unfold Mcp.run_tool. cli.
  destruct (H ("scripts." +:+ module_name)) as [[[tool_main|]]|e];
    [|reflexivity..].
  cbn [Mcp.tool_main]. by destruct (tool_main _) as [[v|e] p'].
Qed.

Lemma main_returns p : ∃ v p', Mcp.main H p = (Return v, p')
                               ∧ (Mcp.truthy v = true ∨ v = PInt 0).
Proof.
  unfold Mcp.main.
  destruct (argv p) as [|script [|command args]];
    [eexists _, _; split; [reflexivity|by right]..|].
  destruct (existsb _ _); [eexists _, _; split; [reflexivity|by right]|].
  destruct (PyDict.get command Mcp.COMMANDS) as [module_name|];
    [|eexists _, _; split; [reflexivity|by left]].
  pose proof (run_tool_cases module_name args p) as Hrun.
  destruct (H ("scripts." +:+ module_name)) as [[[tool_main|]]|e];
    cbn [Mcp.tool_main] in Hrun.
  - cbv zeta in Hrun. rewrite Hrun.
    destruct (tool_main _) as [[v|e] p'].
    + eexists _, _. split; [reflexivity|apply truthy_or_zero].
    + destruct e; eexists _, _; (split; [reflexivity|by left]).
  - cbv zeta in Hrun. rewrite Hrun.
    eexists _, _. split; [reflexivity|by left].
  - rewrite Hrun.
    destruct e; eexists _, _; (split; [reflexivity|by left]).
Qed.

End Runner.

(** X13.  [main] of [mcp.py] lets no exception of a tool or of its
    import escape (of those deriving from [Exception], which is all the
    model has), and what it returns is usable as an exit status: the
    integer 0, or a value that counts as true (1 after any failure).  It
    returns 0 without running anything when no command or a help flag is
    given, and 1 after printing the help when the command is not a key of
    [COMMANDS]; in both cases [sys.argv] and the files are left alone. *)
Theorem mcp_main_never_raises (H : Mcp.Host) (p : Process) :
  (∃ v p', Mcp.main H p = (Return v, p')
           ∧ (Mcp.truthy v = true ∨ v = PInt 0))
  ∧ ((∀ script command args, argv p = script :: command :: args →
        existsb (String.eqb command) ["help"; "-h"; "--help"] = true) →
     Mcp.main H p
     = (Return (PInt 0),
        {| argv := argv p; stdout := stdout p ++ [HelpText];
           world := world p |}))
  ∧ (∀ script command args,
       argv p = script :: command :: args →
       existsb (String.eqb command) ["help"; "-h"; "--help"] = false →
       PyDict.get command Mcp.COMMANDS = None →
       Mcp.main H p
       = (Return (PInt 1),
          {| argv := argv p;
             stdout := stdout p ++ [Text ("[FAIL] Unknown command: " +:+ command);
                                    HelpText];
             world := world p |})).
Proof.
  split; [apply main_returns|]. split.
  - intros Hhelp. unfold Mcp.main.
    destruct (argv p) as [|script [|command args]] eqn:Ha;
      [by rewrite <- Ha..|].
    rewrite (Hhelp script command args eq_refl). by rewrite <- Ha.
  - intros script command args Ha Hh Hc. unfold Mcp.main.
    match goal with |- _ = ?r => set (rhs := r) end.
    rewrite Ha, Hh, Hc. subst rhs.
    unfold mbind, mret, CLI_bind, CLI_ret, print, Mcp.show_help. cbn.
    by rewrite <- app_assoc.
Qed.

Lemma help_is_no_command command :
  existsb (String.eqb command) ["help"; "-h"; "--help"] = true →
  PyDict.get command Mcp.COMMANDS = None.
Proof.
  cbn [existsb]. rewrite orb_false_r, !orb_true_iff, !String.eqb_eq.
  by intros [-> | [-> | ->]].
Qed.

Lemma run_tool_ext (H : Mcp.Host) module_name args p1 p2 :
  stdout p1 = stdout p2 → world p1 = world p2 →
  let r1 := Mcp.run_tool H module_name args p1 in
  let r2 := Mcp.run_tool H module_name args p2 in
  r1.1 = r2.1 ∧ stdout r1.2 = stdout r2.2 ∧ world r1.2 = world r2.2.
Proof.
  intros Ho Hw. cbv zeta.
  pose proof (run_tool_cases H module_name args p1) as H1.
  pose proof (run_tool_cases H module_name args p2) as H2.
  destruct (H ("scripts." +:+ module_name)) as [[[tool_main|]]|e];
    cbn [Mcp.tool_main] in H1, H2; cbv zeta in H1, H2; rewrite H1, H2.
  - rewrite Ho, Hw. by destruct (tool_main _) as [[v|e] p'].
  - cbn. by rewrite Ho, Hw.
  - done.
Qed.

(** X14.  The command word selects the module and is not passed on: two
    commands that [COMMANDS] maps to the same module, given the same
    arguments in the same state, return the same status and leave the
    same files; what they print differs at most in the command named in
    the line reporting an error. *)
Theorem mcp_main_aliases (H : Mcp.Host) (p1 p2 : Process)
    (script1 script2 command1 command2 module_name : string)
    (args : list string) :
  argv p1 = script1 :: command1 :: args →
  argv p2 = script2 :: command2 :: args →
  PyDict.get command1 Mcp.COMMANDS = Some module_name →
  PyDict.get command2 Mcp.COMMANDS = Some module_name →
  stdout p1 = stdout p2 →
  world p1 = world p2 →
  let r1 := Mcp.main H p1 in
  let r2 := Mcp.main H p2 in
  r1.1 = r2.1
  ∧ world r1.2 = world r2.2
  ∧ (stdout r1.2 = stdout r2.2
     ∨ ∃ out e,
         e ≠ ImportError
         ∧ stdout r1.2
           = out ++ [Failure ("[FAIL] Error running " +:+ command1 +:+ ": ") e]
         ∧ stdout r2.2
           = out ++ [Failure ("[FAIL] Error running " +:+ command2 +:+ ": ") e]).
Proof.
  intros Ha1 Ha2 Hc1 Hc2 Ho Hw. cbv zeta.
  assert (∀ c, PyDict.get c Mcp.COMMANDS = Some module_name →
               existsb (String.eqb c) ["help"; "-h"; "--help"] = false) as Hh.
  { intros c Hc. destruct (existsb _ _) eqn:He; [|done].
    apply help_is_no_command in He. congruence. }
  rewrite (main_known H p1 script1 command1 args module_name) by auto.
  rewrite (main_known H p2 script2 command2 args module_name) by auto.
  destruct (run_tool_ext H module_name args p1 p2 Ho Hw) as (Hv & Hs & Hw').
  destruct (Mcp.run_tool H module_name args p1) as [[v1|e1] q1],
           (Mcp.run_tool H module_name args p2) as [[v2|e2] q2];
    cbn [fst snd] in *; try discriminate.
  - split; [done|]. split; [done|]. by left.
  - injection Hv as ->. cbn [stdout world]. rewrite Hs.
    split; [done|]. split; [done|].
    destruct e2; try (right; eexists _, _; split; [|split; reflexivity]; done).
    by left.
Qed.

Lemma mcp_main_aliases_witness :
  (Mcp.main sample_host
     (sample_process ["mcp.py"; "auto"; "--recent"] Sample.used)).1
  = (Mcp.main sample_host
       (sample_process ["mcp.py"; "autocontext"; "--recent"] Sample.used)).1
  ∧ world (Mcp.main sample_host
             (sample_process ["mcp.py"; "auto"; "--recent"] Sample.used)).2
    = world (Mcp.main sample_host
               (sample_process ["mcp.py"; "autocontext"; "--recent"]
                  Sample.used)).2
  ∧ (stdout (Mcp.main sample_host
               (sample_process ["mcp.py"; "auto"; "--recent"] Sample.used)).2
     = stdout (Mcp.main sample_host
                 (sample_process ["mcp.py"; "autocontext"; "--recent"]
                    Sample.used)).2
     ∨ ∃ out e,
         e ≠ ImportError
         ∧ stdout (Mcp.main sample_host
                     (sample_process ["mcp.py"; "auto"; "--recent"]
                        Sample.used)).2
           = out ++ [Failure "[FAIL] Error running auto: " e]
         ∧ stdout (Mcp.main sample_host
                     (sample_process ["mcp.py"; "autocontext"; "--recent"]
                        Sample.used)).2
           = out ++ [Failure "[FAIL] Error running autocontext: " e]).
Proof.
  apply (mcp_main_aliases sample_host
           (sample_process ["mcp.py"; "auto"; "--recent"] Sample.used)
           (sample_process ["mcp.py"; "autocontext"; "--recent"] Sample.used)
           "mcp.py" "mcp.py" "auto" "autocontext" "autocontext" ["--recent"]);
    reflexivity.
Defined.

(** ** The command line of the module *)
Section Cli.
Context (E : Env).

Let root : Path := default (cwd E) (find_project_root E).
Let cp : string := str (get_cache_path E (Some root)).
Let banner : printed := Header "Auto-Context Loader".

Ltac cli := unfold mbind, mret, CLI_bind, CLI_ret, print, print_all,
              get_argv, set_argv, on_world;
            cbn [fst snd argv stdout world].

Lemma autocontext_main_recent p :
  has_flag "--recent" (argv p) = true →
  autocontext_main E p
  = match get_recent_context E 5 50 (Some root) (world p) with
    | (Return result, w') =>
        (Return 0,
         {| argv := argv p;
            stdout := ((stdout p ++ [banner])
                       ++ [Info ("Recent files: "
                                 +:+ pretty (Z.of_nat (length (files result))))])
                      ++ map (λ pc, Text ("  - " +:+ pc.1)) (files result);
            world := w' |})
    | (Raise e, w') =>
        (Raise e, {| argv := argv p; stdout := stdout p ++ [banner];
                     world := w' |})
    end.
Proof.
  intros Hf. unfold autocontext_main. cli. rewrite Hf. cli. fold root.
  by destruct (get_recent_context E 5 50 (Some root) (world p)) as [[r|e] w'].
Qed.

Lemma autocontext_main_hot p :
  has_flag "--recent" (argv p) = false →
  has_flag "--hot" (argv p) = true →
  autocontext_main E p
  = match get_hot_context E 5 50 (Some root) (world p) with
    | (Return result, w') =>
        (Return 0,
         {| argv := argv p;
            stdout := ((stdout p ++ [banner])
                       ++ [Info ("Hot files: "
                                 +:+ pretty (Z.of_nat (length (files result))))])
                      ++ map (λ pc, Text ("  - " +:+ pc.1)) (files result);
            world := w' |})
    | (Raise e, w') =>
        (Raise e, {| argv := argv p; stdout := stdout p ++ [banner];
                     world := w' |})
    end.
Proof.
  intros Hr Hf. unfold autocontext_main. cli. rewrite Hr, Hf. cli. fold root.
  by destruct (get_hot_context E 5 50 (Some root) (world p)) as [[r|e] w'].
Qed.

Lemma autocontext_main_auto p :
  has_flag "--recent" (argv p) = false →
  has_flag "--hot" (argv p) = false →
  has_flag "--auto" (argv p) || bool_decide (positional (argv p) = []) = true →
  let task := match positional (argv p) with
              | [] => EmptyString
              | args => PyStr.join " " args
              end in
  autocontext_main E p
  = match get_auto_context E task 4000 (Some root) (world p) with
    | (Return context, w') =>
        (Return 0,
         {| argv := argv p; stdout := (stdout p ++ [banner]) ++ [Text context];
            world := w' |})
    | (Raise e, w') =>
        (Raise e, {| argv := argv p; stdout := stdout p ++ [banner];
                     world := w' |})
    end.
Proof.
  intros Hr Hh Hf task. unfold autocontext_main. cli. rewrite Hr, Hh, Hf.
  cli. fold root. subst task.
  destruct (positional (argv p)) as [|word words];
    by destruct (get_auto_context E _ 4000 (Some root) (world p))
      as [[r|e] w'].
Qed.


End Cli.

(** X15.  [--recent] decides alone, and [--hot] when [--recent] is
    absent: the module's [main] then ignores every other argument (words,
    [--auto], the other flag), prints the listing, and only reads.  Its
    one access to persisted state is a load of the cache, no file changes
    and the search index is not consulted; when it returns, it returns
    0. *)
Theorem autocontext_main_listing_ignores_rest (E : Env)
    (argv1 argv2 : list string) (out : list printed) (w : World) :
  (has_flag "--recent" argv1 = true ∧ has_flag "--recent" argv2 = true)
  ∨ (has_flag "--recent" argv1 = false ∧ has_flag "--recent" argv2 = false
     ∧ has_flag "--hot" argv1 = true ∧ has_flag "--hot" argv2 = true) →
  let r1 := autocontext_main E {| argv := argv1; stdout := out; world := w |} in
  let r2 := autocontext_main E {| argv := argv2; stdout := out; world := w |} in
  r1.1 = r2.1
  ∧ stdout r1.2 = stdout r2.2
  ∧ world r1.2 = world r2.2
  ∧ world r1.2 = journaled (CacheLoad (str (get_cache_path E None))) w
  ∧ argv r1.2 = argv1
  ∧ ∀ v, r1.1 = Return v → v = 0.
Proof.
  intros [[H1 H2]|(H1 & H2 & H3 & H4)]; cbv zeta.
  - rewrite !autocontext_main_recent by done. cbn [argv stdout world].
    pose proof (get_recent_context_world E
                  (Some (default (cwd E) (find_project_root E))) w 5 50) as Hw.
    destruct (get_recent_context E 5 50 _ w) as [[r|e] w'];
      cbn [fst snd argv stdout world] in *; subst w';
      repeat split; try done; by intros v [= <-].
  - rewrite !autocontext_main_hot by done. cbn [argv stdout world].
    pose proof (get_hot_context_world E
                  (Some (default (cwd E) (find_project_root E))) w 5 50) as Hw.
    destruct (get_hot_context E 5 50 _ w) as [[r|e] w'];
      cbn [fst snd argv stdout world] in *; subst w';
      repeat split; try done; by intros v [= <-].
Qed.

Lemma autocontext_main_listing_ignores_rest_witness :
  (autocontext_main Sample.env
     (sample_process ["autocontext.py"; "--recent"] Sample.used)).1
  = (autocontext_main Sample.env
       (sample_process ["autocontext.py"; "--hot"; "find"; "f"; "--recent"]
          Sample.used)).1
  ∧ stdout (autocontext_main Sample.env
              (sample_process ["autocontext.py"; "--recent"] Sample.used)).2
    = stdout (autocontext_main Sample.env
                (sample_process
                   ["autocontext.py"; "--hot"; "find"; "f"; "--recent"]
                   Sample.used)).2
  ∧ world (autocontext_main Sample.env
             (sample_process ["autocontext.py"; "--recent"] Sample.used)).2
    = world (autocontext_main Sample.env
               (sample_process
                  ["autocontext.py"; "--hot"; "find"; "f"; "--recent"]
                  Sample.used)).2
  ∧ world (autocontext_main Sample.env
             (sample_process ["autocontext.py"; "--recent"] Sample.used)).2
    = journaled (CacheLoad Sample.cache_file) Sample.used
  ∧ argv (autocontext_main Sample.env
            (sample_process ["autocontext.py"; "--recent"] Sample.used)).2
    = ["autocontext.py"; "--recent"]
  ∧ ∀ v, (autocontext_main Sample.env
            (sample_process ["autocontext.py"; "--recent"] Sample.used)).1
         = Return v → v = 0.
Proof.
  apply (autocontext_main_listing_ignores_rest Sample.env
           ["autocontext.py"; "--recent"]
           ["autocontext.py"; "--hot"; "find"; "f"; "--recent"]
           [] Sample.used).
  left. split; reflexivity.
Defined.




(** X17.  Run without a word (no argument, or flags only), the module's
    [main] only reads, whichever flags are given: no file changes, the
    search index is not consulted, and its only accesses to persisted
    state are loads of the cache.  When it returns, it returns 0. *)
Theorem autocontext_main_without_words (E : Env) (p : Process) :
  positional (argv p) = [] →
  let r := autocontext_main E p in
  nodes (world r.2) = nodes (world p)
  ∧ readonly (world r.2) = readonly (world p)
  ∧ (∃ evs, journal (world r.2) = journal (world p) ++ evs
            ∧ Forall (λ e, e = CacheLoad (str (get_cache_path E None))) evs)
  ∧ argv r.2 = argv p
  ∧ ∀ v, r.1 = Return v → v = 0.
Proof.
  intros Hp. cbv zeta.
  destruct (has_flag "--recent" (argv p)) eqn:Hr;
    [|destruct (has_flag "--hot" (argv p)) eqn:Hh].
  - rewrite autocontext_main_recent by done.
    pose proof (get_recent_context_world E
                  (Some (default (cwd E) (find_project_root E)))
                  (world p) 5 50) as Hw.
    destruct (get_recent_context E 5 50 _ (world p)) as [[r|e] w'];
      cbn [fst snd argv stdout world] in *; subst w';
      (split; [done|]; split; [done|];
       split; [eexists; split; [reflexivity|by repeat constructor]|];
       split; [done|]; intros v Hv; by simplify_eq).
  - rewrite autocontext_main_hot by done.
    pose proof (get_hot_context_world E
                  (Some (default (cwd E) (find_project_root E)))
                  (world p) 5 50) as Hw.
    destruct (get_hot_context E 5 50 _ (world p)) as [[r|e] w'];
      cbn [fst snd argv stdout world] in *; subst w';
      (split; [done|]; split; [done|];
       split; [eexists; split; [reflexivity|by repeat constructor]|];
       split; [done|]; intros v Hv; by simplify_eq).
  - rewrite autocontext_main_auto;
      [|done|done|by rewrite Hp, orb_true_r].
    rewrite Hp.
    pose proof (auto_context_empty_task_world E 4000
                  (Some (default (cwd E) (find_project_root E))) (world p))
      as (Hn & Hro & Hj).
    destruct (get_auto_context E EmptyString 4000 _ (world p)) as [[r|e] w'];
      cbn [fst snd argv stdout world] in *;
      (split; [done|]; split; [done|]; split; [done|];
       split; [done|]; intros v Hv; by simplify_eq).
Qed.

Lemma autocontext_main_without_words_witness :
  nodes (world (autocontext_main Sample.env
                  (sample_process ["autocontext.py"; "--auto"] Sample.used)).2)
  = nodes Sample.used
  ∧ readonly (world (autocontext_main Sample.env
                       (sample_process ["autocontext.py"; "--auto"]
                          Sample.used)).2)
    = readonly Sample.used
  ∧ (∃ evs,
       journal (world (autocontext_main Sample.env
                         (sample_process ["autocontext.py"; "--auto"]
                            Sample.used)).2)
       = journal Sample.used ++ evs
       ∧ Forall (λ e, e = CacheLoad Sample.cache_file) evs)
  ∧ argv (autocontext_main Sample.env
            (sample_process ["autocontext.py"; "--auto"] Sample.used)).2
    = ["autocontext.py"; "--auto"]
  ∧ ∀ v, (autocontext_main Sample.env
            (sample_process ["autocontext.py"; "--auto"] Sample.used)).1
         = Return v → v = 0.
Proof.
  apply (autocontext_main_without_words Sample.env
           (sample_process ["autocontext.py"; "--auto"] Sample.used)).
  reflexivity.
Defined.



(** ** What the operations leave alone *)
Section Frame.
Context (E : Env) (root : option Path).

Let cp : string := str (get_cache_path E root).



End Frame.



(** ** Limits and what tracking gives back *)

Lemma slice_to_negative {A} (n : Z) (l : list A) :
  n < 0 →
  PyList.slice_to n l = PyList.slice_to (Z.max 0 (Z.of_nat (length l) + n)) l.
Proof.
  intros Hn. unfold PyList.slice_to.
  destruct (Z.leb_spec 0 n); [lia|].
  destruct (Z.leb_spec 0 (Z.max 0 (Z.of_nat (length l) + n))); [|lia].
  f_equal. lia.
Qed.

(** X20.  A negative [limit] is neither "no limit" nor "nothing": by the
    slice [[:limit]] the listing leaves out the last [-limit] entries, so
    for a cache of the declared types [get_recent_context] and
    [get_hot_context] answer as with the limit [max(0, n + limit)], [n]
    being the number of entries. *)
Theorem negative_limit_counts_from_the_end (E : Env) (root : option Path)
    (w : World) (limit max_lines : Z)
    (names : list string) (counts : list (string * Z)) :
  limit < 0 →
  recent_files (current_cache E root w) = str_list names →
  hot_files (current_cache E root w) = count_dict counts →
  get_recent_context E limit max_lines root w
  = get_recent_context E (Z.max 0 (Z.of_nat (length names) + limit))
      max_lines root w
  ∧ get_hot_context E limit max_lines root w
    = get_hot_context E (Z.max 0 (Z.of_nat (length counts) + limit))
        max_lines root w.
Proof.
  intros Hl Hr Hh. split.
  - rewrite !(get_recent_context_run E root w _ max_lines names Hr).
    cbv zeta. by rewrite slice_to_negative.
  - rewrite !(get_hot_context_run E root w _ max_lines counts Hh).
    cbv zeta. rewrite slice_to_negative by done.
    rewrite length_map.
    by rewrite (Permutation_length (sort_by_perm _ counts)).
Qed.

Lemma negative_limit_counts_from_the_end_witness :
  get_recent_context Sample.env (-1) 50 None Sample.used
  = get_recent_context Sample.env 2 50 None Sample.used
  ∧ get_hot_context Sample.env (-1) 50 None Sample.used
    = get_hot_context Sample.env 2 50 None Sample.used.
Proof.
  apply (negative_limit_counts_from_the_end Sample.env None Sample.used (-1) 50
           ["b.py"; "gone.py"; "a.py"]
           [("b.py", 1); ("a.py", 2); ("gone.py", 2)]).
  - reflexivity.
  - vm_compute. reflexivity.
  - vm_compute. reflexivity.
Defined.


